(** * tdameritrade_api.private.api_wrapper: request construction

    A shallow embedding of [BaseTDAAPIWrapper] (api_wrapper.py) and the
    properties of the requests it hands to its HTTP session.

    - Python values that reach a query mapping or a path are [PyVal].
    - A query mapping (a Python [dict] with string keys) is a
      [gmap string PyVal].
    - The session object is modelled by the log of the calls made on it;
      the wall clock is a stream of readings consumed one per call of
      [datetime.datetime.utcnow()].
    - A method is a function from the world to an outcome (a returned
      value or a raised exception) and the world after the call. *)

From Stdlib Require Import ZArith Ascii String List Lia.
From Stdlib Require Import SpecFloat.
From stdpp Require Import gmap strings list fin_maps.

Local Open Scope string_scope.
Local Open Scope Z_scope.

(** ** Python values *)

Inductive PyVal :=
| VNone
| VBool (b : bool)
| VInt (z : Z)
| VStr (s : string).

(** [x is None] / [x is not None] *)
Definition is_None (v : PyVal) : bool :=
  match v with VNone => true | _ => false end.

(** Truth value of an object, as tested by [if x:]. *)
Definition truthy (v : PyVal) : bool :=
  match v with
  | VNone => false
  | VBool b => b
  | VInt z => negb (z =? 0)
  | VStr s => negb (String.eqb s "")
  end.

(** [isinstance(x, str)] *)
Definition isinstance_str (v : PyVal) : bool :=
  match v with VStr _ => true | _ => false end.

(** ** Exceptions

    A computation returns a value or raises. *)

Inductive exn :=
| ValueError (msg : string)
| TypeError (msg : string).

Inductive outcome (A : Type) :=
| Returns (a : A)
| Raises (e : exn).
Arguments Returns {A} a.
Arguments Raises {A} e.

(** A JSON document, as passed in [order_spec]; the wrapper hands it to the
    session untouched. *)
#[local] Set Warnings "-register-all".
Inductive Json :=
| JNull
| JBool (b : bool)
| JNum (z : Z)
| JStr (s : string)
| JArr (items : list Json)
| JObj (fields : list (string * Json)).
#[local] Set Warnings "register-all".

(** ** Decimal formatting *)

Definition digit (d : Z) : ascii := ascii_of_nat (Z.to_nat (48 + d)).

Fixpoint dec_digits (fuel : nat) (n : Z) (acc : string) : string :=
  match fuel with
  | O => acc
  | S fuel' =>
      let acc' := String (digit (n mod 10)) acc in
      if n / 10 =? 0 then acc' else dec_digits fuel' (n / 10) acc'
  end.

(** Decimal digits of a non-negative integer. *)
Definition decimal (n : Z) : string :=
  dec_digits (S (Z.to_nat (Z.log2 n))) n "".

(** [str(z)] for an [int]. *)
Definition str_int (z : Z) : string :=
  if z <? 0 then "-" +:+ decimal (- z) else decimal z.

Fixpoint zeros (n : nat) : string :=
  match n with O => "" | S n' => String "0" (zeros n') end.

(** Left padding with zeros up to width [w]; longer strings are kept. *)
Definition zfill (w : nat) (s : string) : string :=
  zeros (w - String.length s) +:+ s.

(** ['%0wd' % z] for a non-negative [z]; the [strftime] fields [%m], [%d],
    [%H], [%M], [%S] (width 2) are printed the same way. *)
Definition fmt_0d (w : nat) (z : Z) : string := zfill w (decimal z).

(** [str(v)], which is what ['{}'.format(v)] substitutes. *)
Definition py_str (v : PyVal) : string :=
  match v with
  | VNone => "None"
  | VBool true => "True"
  | VBool false => "False"
  | VInt z => str_int z
  | VStr s => s
  end.

(** [sep.join(xs)] *)
Fixpoint join (sep : string) (xs : list string) : string :=
  match xs with
  | [] => ""
  | x :: rest =>
      match rest with
      | [] => x
      | _ :: _ => x +:+ sep +:+ join sep rest
      end
  end.

(** ** datetime *)

(** A [datetime.datetime] object: the wall-clock fields and the result of
    [utcoffset()] in microseconds ([None] for a naive object). *)
Record datetime := mk_datetime {
  year : Z; month : Z; day : Z;
  hour : Z; minute : Z; second : Z; microsecond : Z;
  utcoffset : option Z
}.

Definition _is_leap (y : Z) : bool :=
  (y mod 4 =? 0) && (negb (y mod 100 =? 0) || (y mod 400 =? 0)).

Definition _days_in_month (y m : Z) : Z :=
  if m =? 2 then (if _is_leap y then 29 else 28)
  else if (m =? 4) || (m =? 6) || (m =? 9) || (m =? 11) then 30 else 31.

(** The invariants [datetime] enforces on construction. *)
Definition valid_datetime (dt : datetime) : bool :=
  (1 <=? year dt) && (year dt <=? 9999) &&
  (1 <=? month dt) && (month dt <=? 12) &&
  (1 <=? day dt) && (day dt <=? _days_in_month (year dt) (month dt)) &&
  (0 <=? hour dt) && (hour dt <? 24) &&
  (0 <=? minute dt) && (minute dt <? 60) &&
  (0 <=? second dt) && (second dt <? 60) &&
  (0 <=? microsecond dt) && (microsecond dt <? 1000000) &&
  match utcoffset dt with
  | None => true
  | Some off => (-86400000000 <? off) && (off <? 86400000000)
  end.

(** [datetime.datetime.min] *)
Definition datetime_min : datetime :=
  mk_datetime 1 1 1 0 0 0 0 None.

(** [dt.strftime('%Y-%m-%dT%H:%M:%S')]. The C library prints [%Y] as the
    plain decimal year, without padding: a year below 1000 takes fewer than
    four characters ([1-01-01T00:00:00] for [datetime.min]). *)
Definition strftime_ymdHMS (dt : datetime) : string :=
  decimal (year dt) +:+ "-" +:+ fmt_0d 2 (month dt) +:+ "-" +:+
  fmt_0d 2 (day dt) +:+ "T" +:+ fmt_0d 2 (hour dt) +:+ ":" +:+
  fmt_0d 2 (minute dt) +:+ ":" +:+ fmt_0d 2 (second dt).

(** [dt.strftime('%z')]: empty for a naive object, otherwise the sign and
    the offset split by [divmod] into hours, minutes, and, when they are
    not zero, seconds and microseconds. *)
Definition strftime_z (dt : datetime) : string :=
  match utcoffset dt with
  | None => ""
  | Some off =>
      let sign := if off <? 0 then "-" else "+" in
      let off := if off <? 0 then - off else off in
      let h := off / 3600000000 in
      let rest := off mod 3600000000 in
      let m := rest / 60000000 in
      let rest := rest mod 60000000 in
      let s := rest / 1000000 in
      let u := off mod 1000000 in
      if negb (u =? 0) then
        sign +:+ fmt_0d 2 h +:+ fmt_0d 2 m +:+ fmt_0d 2 s +:+ "." +:+ fmt_0d 6 u
      else if negb (s =? 0) then
        sign +:+ fmt_0d 2 h +:+ fmt_0d 2 m +:+ fmt_0d 2 s
      else
        sign +:+ fmt_0d 2 h +:+ fmt_0d 2 m
  end.

(** [__format_datetime]: formats datetime objects appropriately, depending
    on whether they are naive or timezone-aware. *)
Definition __format_datetime (dt : datetime) : string :=
  let tz_offset := strftime_z dt in
  let tz_offset := if negb (String.eqb tz_offset "") then tz_offset else "+0000" in
  strftime_ymdHMS dt +:+ tz_offset.

(** *** timestamp()

    Python floats are IEEE 754 binary64 numbers; they are modelled by
    [spec_float] with precision 53 and exponent bound 1024. *)

Definition float_of_int (z : Z) : spec_float := binary_normalize 53 1024 z 0 false.

(** [a / b] on two [int]s: the correctly rounded quotient. *)
Definition int_truediv (a b : Z) : spec_float :=
  let exact z :=
    match z with
    | Z0 => S754_zero false
    | Zpos p => S754_finite false p 0
    | Zneg p => S754_finite true p 0
    end in
  SFdiv 53 1024 (exact a) (exact b).

(** [int(x)] on a finite [float]: truncation towards zero. *)
Definition int_of_float (x : spec_float) : Z :=
  match x with
  | S754_finite s m e =>
      let a := if 0 <=? e then Zpos m * 2 ^ e else Zpos m / 2 ^ (- e) in
      if s then - a else a
  | _ => 0
  end.

Definition _days_before_year (y : Z) : Z :=
  let y := y - 1 in y * 365 + y / 4 - y / 100 + y / 400.

Definition _days_before_month (y m : Z) : Z :=
  nth (Z.to_nat m) [0; 0; 31; 59; 90; 120; 151; 181; 212; 243; 273; 304; 334] 0
  + (if (2 <? m) && _is_leap y then 1 else 0).

Definition _ymd2ord (y m d : Z) : Z :=
  _days_before_year y + _days_before_month y m + d.

(** Seconds between 1970-01-01T00:00:00 and the wall-clock fields of [dt],
    both read naively. *)
Definition wall_seconds (dt : datetime) : Z :=
  (_ymd2ord (year dt) (month dt) (day dt) - _ymd2ord 1970 1 1) * 86400
  + hour dt * 3600 + minute dt * 60 + second dt.

(** The year of a proleptic Gregorian ordinal, as [_ord2ymd] computes it;
    with floor division it also covers the ordinals before 0001-01-01 that
    the C library's [localtime] can produce. *)
Definition _ord2year (n : Z) : Z :=
  let n := n - 1 in
  let n400 := n / 146097 in
  let n := n mod 146097 in
  let n100 := n / 36524 in
  let n := n mod 36524 in
  let n4 := n / 1461 in
  let n := n mod 1461 in
  let n1 := n / 365 in
  let y := n400 * 400 + 1 + n100 * 100 + n4 * 4 + n1 in
  if (n1 =? 4) || (n100 =? 4) then y - 1 else y.

(** [utc_to_seconds]: the seconds from ordinal 0 to the given fields; a
    year outside 1..9999 is refused. *)
Definition utc_to_seconds (y m d H M S : Z) : outcome Z :=
  if (y <? 1) || (9999 <? y) then
    Raises (ValueError ("year " +:+ str_int y +:+ " is out of range"))
  else Returns (((_ymd2ord y m d * 24 + H) * 60 + M) * 60 + S).

(** [719163 * 24 * 60 * 60], the seconds from ordinal 0 to the epoch. *)
Definition epoch_seconds : Z := 719163 * 24 * 60 * 60.

(** [local(u)]: the local wall clock at the instant [u] (in seconds from
    ordinal 0), again as a count of seconds. The C library's [localtime]
    is represented by [zone], the offset from UTC in seconds it applies at
    an instant given in seconds since the epoch; the broken-down time it
    returns goes through [utc_to_seconds], which refuses it when its year
    has left 1..9999. *)
Definition local (zone : Z -> Z) (u : Z) : outcome Z :=
  let lt := u + zone (u - epoch_seconds) in
  let y := _ord2year (lt / 86400) in
  if (y <? 1) || (9999 <? y) then
    Raises (ValueError ("year " +:+ str_int y +:+ " is out of range"))
  else Returns lt.

(** [local_to_seconds] for [fold = 0]: the instant whose local wall clock
    shows the given fields, found by probing [local] at the guess, one day
    before it, and at the second candidate. *)
Definition local_to_seconds (zone : Z -> Z) (dt : datetime) : outcome Z :=
  match utc_to_seconds (year dt) (month dt) (day dt)
                       (hour dt) (minute dt) (second dt) with
  | Raises e => Raises e
  | Returns t =>
  match local zone t with
  | Raises e => Raises e
  | Returns lt =>
  let a := lt - t in
  let u1 := t - a in
  match local zone u1 with
  | Raises e => Raises e
  | Returns t1 =>
  let finish (b : Z) : outcome Z :=
    let u2 := t - b in
    match local zone u2 with
    | Raises e => Raises e
    | Returns t2 =>
        if t2 =? t then Returns u2
        else if t1 =? t then Returns u1
        else Returns (Z.max u1 u2)
    end in
  if t1 =? t then
    let u2 := u1 - 24 * 3600 in
    match local zone u2 with
    | Raises e => Raises e
    | Returns lt =>
        let b := lt - u2 in
        if a =? b then Returns u1 else finish b
    end
  else finish (t1 - u1)
  end end end.

(** [dt.timestamp()]. An aware object is subtracted from the epoch and the
    difference converted by [total_seconds()]; a naive one is located in
    the platform's time zone by [local_to_seconds], which can raise, and
    the microseconds are added as [microsecond / 1e6]. *)
Definition timestamp (zone : Z -> Z) (dt : datetime) : outcome spec_float :=
  match utcoffset dt with
  | Some off =>
      Returns (int_truediv (wall_seconds dt * 1000000 + microsecond dt - off) 1000000)
  | None =>
      match local_to_seconds zone dt with
      | Raises e => Raises e
      | Returns seconds =>
          Returns (SFadd 53 1024
                     (float_of_int (seconds - epoch_seconds))
                     (SFdiv 53 1024 (float_of_int (microsecond dt))
                                    (float_of_int 1000000)))
      end
  end.

(** [__datetime_as_millis]: converts datetime objects to compatible
    millisecond values. *)
Definition __datetime_as_millis (zone : Z -> Z) (dt : datetime) : outcome Z :=
  match timestamp zone dt with
  | Raises e => Raises e
  | Returns t => Returns (int_of_float (SFmul 53 1024 t (float_of_int 1000)))
  end.

(** ** The wrapper object, its session and the world around a call *)

Inductive Verb := GET | POST | PUT | DELETE.

(** One call on the session: [session.get(dest, params=params)],
    [session.post(dest, json=data)], [session.put(dest, json=data)] or
    [session.delete(dest)]. *)
Record Request := mk_request {
  verb : Verb;
  dest : string;
  params : option (gmap string PyVal);
  json : option Json
}.

(** The object the session returns for a request; the wrapper passes it on
    without looking inside. *)
Inductive Response := response_to (r : Request).

(** The instance attributes set by [__init__]. The session is represented
    by the calls made on it so far, oldest first. *)
Record BaseTDAAPIWrapper := __init__ {
  api_key : PyVal;
  session : list Request;
  account_id : PyVal
}.

Record World := mk_world {
  self : BaseTDAAPIWrapper;
  (** successive readings of the UTC wall clock *)
  clock : nat -> datetime;
  clock_reads : nat;
  (** the platform's local time zone: the offset from UTC, in seconds, at
      an instant given in seconds since the epoch *)
  local_utcoffset : Z -> Z;
  (** the mappings handed to [print] *)
  stdout : list (gmap string PyVal)
}.

Definition M (A : Type) : Type := World -> outcome A * World.

Definition ret {A} (a : A) : M A := fun w => (Returns a, w).
Definition raise {A} (e : exn) : M A := fun w => (Raises e, w).
Definition bind {A B} (m : M A) (k : A -> M B) : M B :=
  fun w =>
    match m w with
    | (Returns a, w') => k a w'
    | (Raises e, w') => (Raises e, w')
    end.

Notation "'do' x <- m ; k" := (bind m (fun x => k))
  (at level 10, x name, m at level 100, k at level 200).
Notation "m ;; k" := (bind m (fun _ => k))
  (at level 100, k at level 200, right associativity).

(** An outcome computed without touching the world. *)
Definition of_outcome {A} (o : outcome A) : M A := fun w => (o, w).

Definition get_self : M BaseTDAAPIWrapper := fun w => (Returns (self w), w).

Definition get_local_utcoffset : M (Z -> Z) :=
  fun w => (Returns (local_utcoffset w), w).

(** A call on the session: it is recorded and answered. *)
Definition session_call (r : Request) : M Response :=
  fun w =>
    let s := self w in
    (Returns (response_to r),
     mk_world (__init__ (api_key s) (session s ++ [r]) (account_id s))
              (clock w) (clock_reads w) (local_utcoffset w) (stdout w)).

(** The wall-clock fields of [t] as a naive object. *)
Definition naive (t : datetime) : datetime :=
  mk_datetime (year t) (month t) (day t) (hour t) (minute t)
              (second t) (microsecond t) None.

(** [datetime.datetime.utcnow()]: a fresh reading of the clock, returned as
    a naive object. *)
Definition utcnow : M datetime :=
  fun w =>
    (Returns (naive (clock w (clock_reads w))),
     mk_world (self w) (clock w) (S (clock_reads w)) (local_utcoffset w) (stdout w)).

(** [print(params)] *)
Definition print (d : gmap string PyVal) : M unit :=
  fun w =>
    (Returns tt,
     mk_world (self w) (clock w) (clock_reads w) (local_utcoffset w) (stdout w ++ [d])).

(** A positional argument at a call site: given, or left out. *)
Inductive Arg (A : Type) :=
| Given (a : A)
| Omitted.
Arguments Given {A} a.
Arguments Omitted {A}.

(** ** Private helpers *)

Definition __account_id : M PyVal :=
  do s <- get_self;
  if is_None (account_id s) then
    raise (ValueError "client initialized without account ID")
  else ret (account_id s).

Definition __get_request (path : string) (params : Arg (gmap string PyVal)) : M Response :=
  match params with
  | Omitted =>
      (* Python binds the arguments before the body runs *)
      raise (TypeError ("BaseTDAAPIWrapper.__get_request() missing 1 required " +:+
                        "positional argument: 'params'"))
  | Given params =>
      let dest := "https://api.tdameritrade.com" +:+ path in
      do resp <- session_call (mk_request GET dest (Some params) None);
      ret resp
  end.

Definition __post_request (path : string) (data : Json) : M Response :=
  let dest := "https://api.tdameritrade.com" +:+ path in
  session_call (mk_request POST dest None (Some data)).

Definition __put_request (path : string) (data : Json) : M Response :=
  let dest := "https://api.tdameritrade.com" +:+ path in
  session_call (mk_request PUT dest None (Some data)).

Definition __delete_request (path : string) : M Response :=
  let dest := "https://api.tdameritrade.com" +:+ path in
  session_call (mk_request DELETE dest None None).

(** ** Orders *)

Definition cancel_order (order_id account_id : PyVal) : M Response :=
  let path := "/v1/accounts/" +:+ py_str account_id +:+ "/orders/" +:+ py_str order_id in
  __delete_request path.

Definition get_order (order_id account_id : PyVal) : M Response :=
  let path := "/v1/accounts/" +:+ py_str account_id +:+ "/orders/" +:+ py_str order_id in
  __get_request path Omitted.

Definition __make_order_query
    (max_results : PyVal)
    (from_entered_datetime to_entered_datetime : option datetime)
    (status : PyVal) (statuses : option (list string)) : M (gmap string PyVal) :=
  do from_entered_datetime <-
    match from_entered_datetime with
    | None => ret datetime_min
    | Some dt => ret dt
    end;
  do to_entered_datetime <-
    match to_entered_datetime with
    | None => utcnow
    | Some dt => ret dt
    end;
  let params : gmap string PyVal :=
    <["toEnteredTime" := VStr (__format_datetime to_entered_datetime)]>
      (<["fromEnteredTime" := VStr (__format_datetime from_entered_datetime)]> ∅) in
  let params := if truthy max_results then <["maxResults" := max_results]> params else params in
  if negb (is_None status) && bool_decide (statuses <> None) then
    raise (ValueError "at most one of status or statuses may be set")
  else
    let params := if truthy status then <["status" := status]> params else params in
    let params :=
      match statuses with
      | Some ((_ :: _) as l) => <["status" := VStr (join "," l)]> params
      | _ => params
      end in
    ret params.

Definition get_orders_by_path
    (account_id max_results : PyVal)
    (from_entered_datetime to_entered_datetime : option datetime)
    (status : PyVal) (statuses : option (list string)) : M Response :=
  let path := "/v1/accounts/" +:+ py_str account_id +:+ "/orders" in
  do q <- __make_order_query max_results from_entered_datetime
            to_entered_datetime status statuses;
  __get_request path (Given q).

Definition get_orders_by_query
    (max_results : PyVal)
    (from_entered_datetime to_entered_datetime : option datetime)
    (status : PyVal) (statuses : option (list string)) : M Response :=
  let path := "/v1/orders" in
  do q <- __make_order_query max_results from_entered_datetime
            to_entered_datetime status statuses;
  __get_request path (Given q).

Definition place_order (account_id : PyVal) (order_spec : Json) : M Response :=
  let path := "/v1/accounts/" +:+ py_str account_id +:+ "/orders" in
  __post_request path order_spec.

Definition replace_order (account_id order_id : PyVal) (order_spec : Json) : M Response :=
  let path := "/v1/accounts/" +:+ py_str account_id +:+ "/orders/" +:+ py_str order_id in
  __post_request path order_spec.

(** ** Saved orders *)

Definition create_saved_order (account_id : PyVal) (order_spec : Json) : M Response :=
  let path := "/v1/accounts/" +:+ py_str account_id +:+ "/savedorders" in
  __post_request path order_spec.

Definition delete_saved_order (account_id order_id : PyVal) : M Response :=
  let path := "/v1/accounts/" +:+ py_str account_id +:+ "/savedorders/" +:+ py_str order_id in
  __delete_request path.

Definition get_saved_order (account_id order_id : PyVal) : M Response :=
  let path := "/v1/accounts/" +:+ py_str account_id +:+ "/savedorders/" +:+ py_str order_id in
  __get_request path (Given ∅).

Definition get_saved_orders_by_path (account_id : PyVal) : M Response :=
  let path := "/v1/accounts/" +:+ py_str account_id +:+ "/savedorders" in
  __get_request path (Given ∅).

Definition replace_saved_order (account_id order_id : PyVal) (order_spec : Json) : M Response :=
  let path := "/v1/accounts/" +:+ py_str account_id +:+ "/savedorders/" +:+ py_str order_id in
  __put_request path order_spec.

(** ** Accounts *)

Definition get_account (account_id : PyVal) (fields : option (list string)) : M Response :=
  let params : gmap string PyVal := ∅ in
  let params :=
    match fields with
    | Some ((_ :: _) as l) => <["fields" := VStr (join "," l)]> params
    | _ => params
    end in
  let path := "/v1/accounts/" +:+ py_str account_id in
  __get_request path (Given params).

Definition get_accounts (fields : option (list string)) : M Response :=
  let params : gmap string PyVal := ∅ in
  let params :=
    match fields with
    | Some ((_ :: _) as l) => <["fields" := VStr (join "," l)]> params
    | _ => params
    end in
  let path := "/v1/accounts" in
  __get_request path (Given params).

(** ** Instruments *)

Definition search_instruments (symbol projection : PyVal) : M Response :=
  do s <- get_self;
  let params : gmap string PyVal :=
    <["projection" := projection]>
      (<["symbol" := symbol]> (<["apikey" := api_key s]> ∅)) in
  let path := "/v1/instruments" in
  __get_request path (Given params).

Definition get_instrument (cusip : PyVal) : M Response :=
  if negb (isinstance_str cusip) then
    raise (ValueError "CUSIPs must be passed as strings to preserve leading zeroes")
  else
    do s <- get_self;
    let params : gmap string PyVal := <["apikey" := api_key s]> ∅ in
    let path := "/v1/instruments/" +:+ py_str cusip in
    __get_request path (Given params).

(** ** Market hours *)

Definition get_hours_for_multiple_markets (markets : list string) (date : datetime)
  : M Response :=
  do s <- get_self;
  let params : gmap string PyVal :=
    <["date" := VStr (__format_datetime date)]>
      (<["markets" := VStr (join "," markets)]> (<["apikey" := api_key s]> ∅)) in
  print params ;;
  let path := "/v1/marketdata/hours" in
  __get_request path (Given params).

Definition get_hours_for_a_single_market (market : PyVal) (date : datetime) : M Response :=
  do s <- get_self;
  let params : gmap string PyVal :=
    <["date" := VStr (__format_datetime date)]> (<["apikey" := api_key s]> ∅) in
  print params ;;
  let path := "/v1/marketdata/" +:+ py_str market +:+ "/hours" in
  __get_request path (Given params).

(** ** Movers *)

Definition get_movers (index direction change : PyVal) : M Response :=
  do s <- get_self;
  let params : gmap string PyVal :=
    <["change" := change]>
      (<["direction" := direction]> (<["apikey" := api_key s]> ∅)) in
  let path := "/v1/marketdata/" +:+ py_str index +:+ "/movers" in
  __get_request path (Given params).

(** ** Option chains *)

Definition get_option_chain
    (symbol contract_type strike_count include_quotes strategy interval
     strike strike_range : PyVal)
    (strike_from_date strike_to_date : option datetime)
    (volatility underlying_price interest_rate days_to_expiration
     exp_month option_type : PyVal) : M Response :=
  do s <- get_self;
  let params : gmap string PyVal :=
    <["optionType" := option_type]>
      (<["expMonth" := exp_month]>
        (<["range" := strike_range]>
          (<["contractType" := contract_type]>
            (<["includeQuotes" := include_quotes]>
              (<["symbol" := symbol]> (<["apikey" := api_key s]> ∅)))))) in
  let params :=
    if negb (is_None strike_count) then <["strikeCount" := strike_count]> params else params in
  let params :=
    if negb (is_None strategy) then <["strategy" := strategy]> params else params in
  let params :=
    if negb (is_None interval) then <["interval" := interval]> params else params in
  let params :=
    if negb (is_None strike) then <["strike" := strike]> params else params in
  let params :=
    match strike_from_date with
    | Some d => <["fromDate" := VStr (__format_datetime d)]> params
    | None => params
    end in
  let params :=
    match strike_to_date with
    | Some d => <["toDate" := VStr (__format_datetime d)]> params
    | None => params
    end in
  let params :=
    if negb (is_None volatility) then <["volatility" := volatility]> params else params in
  let params :=
    if negb (is_None underlying_price) then <["underlyingPrice" := underlying_price]> params
    else params in
  let params :=
    if negb (is_None interest_rate) then <["interestRate" := interest_rate]> params
    else params in
  let params :=
    if is_None days_to_expiration then <["daysToExpiration" := days_to_expiration]> params
    else params in
  let path := "/v1/marketdata/chains" in
  __get_request path (Given params).

(** [get_option_chain(symbol)], every keyword argument at its default. *)
Definition get_option_chain_default (symbol : PyVal) : M Response :=
  get_option_chain symbol (VStr "ALL") VNone (VBool false) VNone VNone VNone
    (VStr "ALL") None None VNone VNone VNone VNone (VStr "ALL") (VStr "ALL").

(** ** Price history *)

Definition get_price_history
    (symbol period_type num_periods frequency_type frequency : PyVal)
    (start_date end_date : option datetime)
    (need_extended_hours_data : PyVal) : M Response :=
  do s <- get_self;
  do tz <- get_local_utcoffset;
  let params : gmap string PyVal :=
    <["needExtendedHoursData" := need_extended_hours_data]>
      (<["frequency" := frequency]>
        (<["periodType" := period_type]>
          (<["symbol" := symbol]> (<["apikey" := api_key s]> ∅)))) in
  let params :=
    if negb (is_None num_periods) then <["period" := num_periods]> params else params in
  let params :=
    if negb (is_None frequency_type) then <["frequencyType" := frequency_type]> params
    else params in
  do params <-
    match start_date with
    | Some d =>
        do ms <- of_outcome (__datetime_as_millis tz d);
        ret (<["startDate" := VInt ms]> params)
    | None => ret params
    end;
  do params <-
    match end_date with
    | Some d =>
        do ms <- of_outcome (__datetime_as_millis tz d);
        ret (<["endDate" := VInt ms]> params)
    | None => ret params
    end;
  let path := "/v1/marketdata/" +:+ py_str symbol +:+ "/pricehistory" in
  __get_request path (Given params).

(** [get_price_history(symbol)], every keyword argument at its default. *)
Definition get_price_history_default (symbol : PyVal) : M Response :=
  get_price_history symbol (VStr "day") VNone VNone (VInt 1) None None (VBool false).

(** ** Quotes *)

Definition get_quote (symbol : PyVal) : M Response :=
  do s <- get_self;
  let params : gmap string PyVal := <["apikey" := api_key s]> ∅ in
  let path := "/v1/marketdata/" +:+ py_str symbol +:+ "/quotes" in
  __get_request path (Given params).

Definition get_quotes (symbols : list string) : M Response :=
  do s <- get_self;
  let params : gmap string PyVal :=
    <["symbol" := VStr (join "," symbols)]> (<["apikey" := api_key s]> ∅) in
  let path := "/v1/marketdata/quotes" in
  __get_request path (Given params).

(** ** The public surface

    One constructor per public method, carrying the arguments of the call. *)

Inductive call :=
| Call_cancel_order (order_id account_id : PyVal)
| Call_get_order (order_id account_id : PyVal)
| Call_get_orders_by_path (account_id max_results : PyVal)
    (from_entered_datetime to_entered_datetime : option datetime)
    (status : PyVal) (statuses : option (list string))
| Call_get_orders_by_query (max_results : PyVal)
    (from_entered_datetime to_entered_datetime : option datetime)
    (status : PyVal) (statuses : option (list string))
| Call_place_order (account_id : PyVal) (order_spec : Json)
| Call_replace_order (account_id order_id : PyVal) (order_spec : Json)
| Call_create_saved_order (account_id : PyVal) (order_spec : Json)
| Call_delete_saved_order (account_id order_id : PyVal)
| Call_get_saved_order (account_id order_id : PyVal)
| Call_get_saved_orders_by_path (account_id : PyVal)
| Call_replace_saved_order (account_id order_id : PyVal) (order_spec : Json)
| Call_get_account (account_id : PyVal) (fields : option (list string))
| Call_get_accounts (fields : option (list string))
| Call_search_instruments (symbol projection : PyVal)
| Call_get_instrument (cusip : PyVal)
| Call_get_hours_for_multiple_markets (markets : list string) (date : datetime)
| Call_get_hours_for_a_single_market (market : PyVal) (date : datetime)
| Call_get_movers (index direction change : PyVal)
| Call_get_option_chain
    (symbol contract_type strike_count include_quotes strategy interval
     strike strike_range : PyVal)
    (strike_from_date strike_to_date : option datetime)
    (volatility underlying_price interest_rate days_to_expiration
     exp_month option_type : PyVal)
| Call_get_price_history
    (symbol period_type num_periods frequency_type frequency : PyVal)
    (start_date end_date : option datetime)
    (need_extended_hours_data : PyVal)
| Call_get_quote (symbol : PyVal)
| Call_get_quotes (symbols : list string).

Definition invoke (c : call) : M Response :=
  match c with
  | Call_cancel_order o a => cancel_order o a
  | Call_get_order o a => get_order o a
  | Call_get_orders_by_path a mr f t st sts => get_orders_by_path a mr f t st sts
  | Call_get_orders_by_query mr f t st sts => get_orders_by_query mr f t st sts
  | Call_place_order a spec => place_order a spec
  | Call_replace_order a o spec => replace_order a o spec
  | Call_create_saved_order a spec => create_saved_order a spec
  | Call_delete_saved_order a o => delete_saved_order a o
  | Call_get_saved_order a o => get_saved_order a o
  | Call_get_saved_orders_by_path a => get_saved_orders_by_path a
  | Call_replace_saved_order a o spec => replace_saved_order a o spec
  | Call_get_account a fs => get_account a fs
  | Call_get_accounts fs => get_accounts fs
  | Call_search_instruments sy pr => search_instruments sy pr
  | Call_get_instrument cu => get_instrument cu
  | Call_get_hours_for_multiple_markets ms d => get_hours_for_multiple_markets ms d
  | Call_get_hours_for_a_single_market m d => get_hours_for_a_single_market m d
  | Call_get_movers i d c => get_movers i d c
  | Call_get_option_chain sy ct sc iq sg iv sk sr fd td vo up ir de em ot =>
      get_option_chain sy ct sc iq sg iv sk sr fd td vo up ir de em ot
  | Call_get_price_history sy pt np ft fr sd ed ne =>
      get_price_history sy pt np ft fr sd ed ne
  | Call_get_quote sy => get_quote sy
  | Call_get_quotes sys => get_quotes sys
  end.

(** The methods that act on one account, named by an account identifier. *)
Definition account_scoped (c : call) : bool :=
  match c with
  | Call_cancel_order _ _ | Call_get_order _ _
  | Call_get_orders_by_path _ _ _ _ _ _
  | Call_place_order _ _ | Call_replace_order _ _ _
  | Call_create_saved_order _ _ | Call_delete_saved_order _ _
  | Call_get_saved_order _ _ | Call_get_saved_orders_by_path _
  | Call_replace_saved_order _ _ _ | Call_get_account _ _ => true
  | _ => false
  end.

(** The market-data and instrument methods. *)
Definition market_data (c : call) : bool :=
  match c with
  | Call_search_instruments _ _ | Call_get_instrument _
  | Call_get_hours_for_multiple_markets _ _
  | Call_get_hours_for_a_single_market _ _
  | Call_get_movers _ _ _
  | Call_get_option_chain _ _ _ _ _ _ _ _ _ _ _ _ _ _ _ _
  | Call_get_price_history _ _ _ _ _ _ _ _
  | Call_get_quote _ | Call_get_quotes _ => true
  | _ => false
  end.

(** The query mapping of the last call made on the session, if it had one. *)
Definition last_request (w : World) : option Request := last (session (self w)).

(** The world after request [r] has been handed to the session. *)
Definition sent (w : World) (r : Request) : World :=
  mk_world (__init__ (api_key (self w)) (session (self w) ++ [r]) (account_id (self w)))
           (clock w) (clock_reads w) (local_utcoffset w) (stdout w).

(** [m], run in [w], hands exactly the request [r] to the session and
    returns its response. *)
Definition dispatches (m : M Response) (w : World) (r : Request) : Prop :=
  m w = (Returns (response_to r), sent w r).

(** The [InvalidState] and [InvalidArgument] errors of the wrapper. *)
Definition InvalidState : exn := ValueError "client initialized without account ID".
Definition InvalidArgument_status : exn :=
  ValueError "at most one of status or statuses may be set".
Definition InvalidArgument_cusip : exn :=
  ValueError "CUSIPs must be passed as strings to preserve leading zeroes".

(** A client built as [BaseTDAAPIWrapper("KEY", session)], no account
    identifier, in a UTC time zone, with a clock ticking once a second. *)
Definition sample_world : World :=
  mk_world (__init__ (VStr "KEY") [] VNone)
           (fun n => mk_datetime 2020 3 1 12 0 (Z.of_nat n) 0 None) 0
           (fun _ => 0) [].

(** ** Vocabulary of the properties *)


(** Two decimal digits, tens first. *)
Definition two_digits (z : Z) : string :=
  String (digit (z / 10)) (String (digit (z mod 10)) "").

Definition four_digits (z : Z) : string :=
  String (digit (z / 1000)) (String (digit (z / 100 mod 10)) (two_digits (z mod 100))).

(** The month, day, hour, minute and second of [dt] on two digits each,
    with the separators, from the dash after the year on. *)
Definition iso_tail (dt : datetime) : string :=
  "-" +:+ two_digits (month dt) +:+ "-" +:+ two_digits (day dt) +:+ "T" +:+
  two_digits (hour dt) +:+ ":" +:+ two_digits (minute dt) +:+ ":" +:+
  two_digits (second dt).



(** The world after one reading of the clock. *)
Definition tick (w : World) : World :=
  mk_world (self w) (clock w) (S (clock_reads w)) (local_utcoffset w) (stdout w).

(** The mapping [__make_order_query] builds once both bounds are known. *)
Definition order_params (max_results : PyVal) (lo hi : datetime)
    (status : PyVal) (statuses : option (list string)) : gmap string PyVal :=
  let params : gmap string PyVal :=
    <["toEnteredTime" := VStr (__format_datetime hi)]>
      (<["fromEnteredTime" := VStr (__format_datetime lo)]> ∅) in
  let params := if truthy max_results then <["maxResults" := max_results]> params else params in
  let params := if truthy status then <["status" := status]> params else params in
  match statuses with
  | Some ((_ :: _) as l) => <["status" := VStr (join "," l)]> params
  | _ => params
  end.

(** [m] raises the status/statuses error and leaves the session as it was. *)
Definition rejects_status_pair (m : M Response) (w : World) : Prop :=
  exists w', m w = (Raises InvalidArgument_status, w')
             /\ session (self w') = session (self w).

(** [m] returns the response to one request, handed to the session. *)
Definition completes (m : M Response) (w : World) : Prop :=
  exists r w', m w = (Returns (response_to r), w')
               /\ session (self w') = (session (self w) ++ [r])%list.

(** [m], run in [w], returns the response to a request whose mapping has
    the formatted [datetime.min] as lower bound and the formatted [hi] as
    upper bound, and leaves the world [w']. *)
Definition queries_with_bounds (m : M Response) (w : World) (hi : datetime) (w' : World)
  : Prop :=
  exists r q, m w = (Returns (response_to r), w')
    /\ params r = Some q
    /\ q !! "fromEnteredTime" = Some (VStr (__format_datetime datetime_min))
    /\ q !! "toEnteredTime" = Some (VStr (__format_datetime hi)).

(** [c], run in [w], hands one request to the session, and its query
    mapping holds the client's key under [apikey]. *)
Definition sends_apikey (c : call) (w : World) : Prop :=
  exists r q w', invoke c w = (Returns (response_to r), w')
    /\ session (self w') = (session (self w) ++ [r])%list
    /\ params r = Some q
    /\ q !! "apikey" = Some (api_key (self w)).

(** No request in [rs] has an [apikey] entry in its query mapping. *)
Definition no_apikey (rs : list Request) : Prop :=
  Forall (fun r => forall q, params r = Some q -> q !! "apikey" = None) rs.

(** [s.split(c)], the inverse used to read a joined value back. *)
Fixpoint split_on (c : ascii) (s : string) : list string :=
  match s with
  | EmptyString => [""]
  | String a s' =>
      if Ascii.eqb a c then "" :: split_on c s'
      else match split_on c s' with
           | h :: t => String a h :: t
           | [] => [String a ""]
           end
  end.

Fixpoint free_of (c : ascii) (s : string) : bool :=
  match s with
  | EmptyString => true
  | String a s' => negb (Ascii.eqb a c) && free_of c s'
  end.

(** [m], run in [w], hands over one request whose query mapping holds the
    string [v] under [k]. *)
Definition sends_string (m : M Response) (w : World) (k v : string) : Prop :=
  exists r q w', m w = (Returns (response_to r), w')
    /\ session (self w') = (session (self w) ++ [r])%list
    /\ params r = Some q
    /\ q !! k = Some (VStr v).

(** The two market-hours methods, which print their query mapping. *)
Definition market_hours (c : call) : bool :=
  match c with
  | Call_get_hours_for_multiple_markets _ _
  | Call_get_hours_for_a_single_market _ _ => true
  | _ => false
  end.

(** The calls that read the clock: an order query without an upper bound. *)
Definition reads_clock (c : call) : bool :=
  match c with
  | Call_get_orders_by_path _ _ _ None _ _
  | Call_get_orders_by_query _ _ None _ _ => true
  | _ => false
  end.

(** [P] holds of the request whose response [c] returns, if it returns. *)
Definition on_request (c : call) (w : World) (P : Request -> Prop) : Prop :=
  match fst (invoke c w) with
  | Returns (response_to r) => P r
  | Raises _ => True
  end.

(** What a request carries, by verb: a GET has a query mapping and no
    body, a POST or PUT a JSON body and no query mapping, a DELETE neither. *)
Definition well_shaped (r : Request) : Prop :=
  match verb r with
  | GET => is_Some (params r) /\ json r = None
  | POST | PUT => params r = None /\ is_Some (json r)
  | DELETE => params r = None /\ json r = None
  end.

(** The entry a pass-through optional argument leaves in the query mapping:
    none for [None], the value itself otherwise. *)
Definition unless_None (v : PyVal) : option PyVal :=
  if is_None v then None else Some v.

(** The conversion of an optional bound of the price history. *)
Definition bound_millis (zone : Z -> Z) (o : option datetime) : outcome (option Z) :=
  match o with
  | None => Returns None
  | Some d =>
      match __datetime_as_millis zone d with
      | Returns ms => Returns (Some ms)
      | Raises e => Raises e
      end
  end.

(** The mapping [get_price_history] builds once both bounds are converted. *)
Definition price_params (key symbol pt np ft fr : PyVal) (sd ed : option Z) (ne : PyVal)
  : gmap string PyVal :=
  let params : gmap string PyVal :=
    <["needExtendedHoursData" := ne]>
      (<["frequency" := fr]>
        (<["periodType" := pt]>
          (<["symbol" := symbol]> (<["apikey" := key]> ∅)))) in
  let params := if negb (is_None np) then <["period" := np]> params else params in
  let params := if negb (is_None ft) then <["frequencyType" := ft]> params else params in
  let params :=
    match sd with Some ms => <["startDate" := VInt ms]> params | None => params end in
  match ed with Some ms => <["endDate" := VInt ms]> params | None => params end.

(** The conversion of a bound of the price history raises [e]: that of
    [start_date], or, [start_date] converted, that of [end_date]. *)
Definition bound_rejected (zone : Z -> Z) (sd ed : option datetime) (e : exn) : Prop :=
  bound_millis zone sd = Raises e
  \/ (exists s, bound_millis zone sd = Returns s /\ bound_millis zone ed = Raises e).

(** The exception a call raises, read off its arguments and the time zone. *)
Definition raised (zone : Z -> Z) (c : call) : option exn :=
  match c with
  | Call_get_order _ _ =>
      Some (TypeError ("BaseTDAAPIWrapper.__get_request() missing 1 required " +:+
                       "positional argument: 'params'"))
  | Call_get_price_history _ _ _ _ _ sd ed _ =>
      match bound_millis zone sd with
      | Raises e => Some e
      | Returns _ =>
          match bound_millis zone ed with
          | Raises e => Some e
          | Returns _ => None
          end
      end
  | Call_get_orders_by_path _ _ _ _ st sts
  | Call_get_orders_by_query _ _ _ st sts =>
      if negb (is_None st) && bool_decide (sts <> None)
      then Some InvalidArgument_status else None
  | Call_get_instrument cusip =>
      if isinstance_str cusip then None else Some InvalidArgument_cusip
  | _ => None
  end.

(** The destination of the request [m] hands over in [w], if it does. *)
Definition dest_of (m : M Response) (w : World) : option string :=
  match fst (m w) with
  | Returns (response_to r) => Some (dest r)
  | Raises _ => None
  end.

(** Reading decimal digits back. *)
Definition digit_value (a : ascii) : Z := Z.of_nat (nat_of_ascii a) - 48.

Definition two_value (a b : ascii) : Z := digit_value a * 10 + digit_value b.

Fixpoint parse_digits (s : string) (acc : Z) : Z :=
  match s with
  | EmptyString => acc
  | String a s' => parse_digits s' (acc * 10 + digit_value a)
  end.

(** The part of [s] before the first [c], and the part after it. *)
Fixpoint take_until (c : ascii) (s : string) : string * string :=
  match s with
  | EmptyString => ("", "")
  | String a s' =>
      if Ascii.eqb a c then ("", s')
      else let (x, rest) := take_until c s' in (String a x, rest)
  end.

(** The six fields of [Y-MM-DDTHH:MM:SS...]: the year is what precedes the
    first dash, the others sit at fixed positions after it. *)
Definition parse_iso_fields (s : string) : option (Z * Z * Z * Z * Z * Z) :=
  let (y, rest) := take_until "-" s in
  match list_ascii_of_string rest with
  | m1 :: m2 :: _ :: d1 :: d2 :: _
    :: h1 :: h2 :: _ :: n1 :: n2 :: _ :: s1 :: s2 :: _ =>
      Some (parse_digits y 0, two_value m1 m2,
            two_value d1 d2, two_value h1 h2, two_value n1 n2, two_value s1 s2)
  | _ => None
  end.

(** [int(s)] on a decimal literal with an optional minus sign. *)
Definition parse_int (s : string) : Z :=
  match s with
  | String "-" s' => - parse_digits s' 0
  | _ => parse_digits s 0
  end.

(** The [%z] rendering of an offset of [h] hours, [m] minutes and [s]
    seconds. *)
Definition hhmmss (sign : ascii) (h m s : Z) : string :=
  String sign (two_digits h +:+ two_digits m +:+ two_digits s).

(** [dt] seen from a zone [k] hours further east: the same instant. *)
Definition shift_zone (k : Z) (dt : datetime) : datetime :=
  mk_datetime (year dt) (month dt) (day dt) (hour dt + k) (minute dt) (second dt)
              (microsecond dt) ((fun off => off + k * 3600000000) <$> utcoffset dt).

(** * Properties *)

Ltac run :=
  cbv [invoke dispatches sent
       cancel_order get_order get_orders_by_path get_orders_by_query
       place_order replace_order create_saved_order delete_saved_order
       get_saved_order get_saved_orders_by_path replace_saved_order
       get_account get_accounts search_instruments get_instrument
       get_hours_for_multiple_markets get_hours_for_a_single_market
       get_movers get_option_chain get_option_chain_default
       get_price_history get_price_history_default get_quote get_quotes
       __account_id __get_request __post_request __put_request __delete_request
       bind ret raise get_self get_local_utcoffset session_call print
       fst snd self api_key session account_id clock clock_reads
       local_utcoffset stdout verb dest params json
       isinstance_str negb].

(** ** Lookups through conditional insertions *)

Section CondInsert.
Context {V : Type}.
Implicit Types (m : gmap string V) (k : string).

Lemma lookup_if_insert_ne (b : bool) k k' v m :
  k ≠ k' -> (if b then <[k := v]> m else m) !! k' = m !! k'.
Proof. intros Hne. destruct b; [apply lookup_insert_ne, Hne | reflexivity]. Qed.

Lemma lookup_opt_insert_ne {A} (o : option A) k k' (f : A -> V) m :
  k ≠ k' ->
  match o with Some d => <[k := f d]> m | None => m end !! k' = m !! k'.
Proof. intros Hne. destruct o; [apply lookup_insert_ne, Hne | reflexivity]. Qed.

Lemma lookup_list_insert_ne {A} (o : option (list A)) k k' (f : list A -> V) m :
  k ≠ k' ->
  match o with Some ((_ :: _) as l) => <[k := f l]> m | _ => m end !! k' = m !! k'.
Proof.
  intros Hne. destruct o as [[|x l]|]; try reflexivity.
  apply lookup_insert_ne, Hne.
Qed.

End CondInsert.

Ltac lookup_through :=
  repeat first
    [ rewrite lookup_insert_eq
    | rewrite lookup_insert_ne by discriminate
    | rewrite lookup_if_insert_ne by discriminate
    | rewrite lookup_opt_insert_ne by discriminate
    | rewrite lookup_list_insert_ne by discriminate
    | rewrite lookup_empty ].

(** ** Concrete runs *)

Example format_datetime_min :
  __format_datetime datetime_min = "1-01-01T00:00:00+0000".
Proof. reflexivity. Qed.

Example format_datetime_west :
  __format_datetime (mk_datetime 2020 2 29 13 5 9 0 (Some (-19800000000)))
  = "2020-02-29T13:05:09-0530".
Proof. reflexivity. Qed.

Example format_datetime_offset_with_seconds :
  __format_datetime (mk_datetime 1900 1 1 0 0 0 0 (Some 1172000000))
  = "1900-01-01T00:00:00+001932".
Proof. reflexivity. Qed.

Example py_str_int : py_str (VInt (-1234567890)) = "-1234567890".
Proof. reflexivity. Qed.

Example datetime_as_millis_aware :
  __datetime_as_millis (fun _ => 0) (mk_datetime 2020 2 29 13 5 9 123456 (Some 0))
  = Returns 1582981509123.
Proof. vm_compute. reflexivity. Qed.

Example datetime_as_millis_naive_local :
  __datetime_as_millis (fun _ => 3600) (mk_datetime 2020 2 29 13 5 9 123456 None)
  = Returns 1582977909123.
Proof. vm_compute. reflexivity. Qed.

(** The product is taken in binary floating point before it is truncated:
    1.001 s gives 1000. *)
Example datetime_as_millis_rounding :
  __datetime_as_millis (fun _ => 0) (mk_datetime 1970 1 1 0 0 1 1000 (Some 0))
  = Returns 1000.
Proof. vm_compute. reflexivity. Qed.

(** A naive timestamp is located in the local zone by probing one day
    earlier, which leaves the supported years at [datetime.min]. *)
Example datetime_as_millis_min_raises :
  __datetime_as_millis (fun _ => 0) datetime_min
  = Raises (ValueError "year 0 is out of range").
Proof. vm_compute. reflexivity. Qed.

Example format_datetime_year_987 :
  __format_datetime (mk_datetime 987 6 5 4 3 2 0 None) = "987-06-05T04:03:02+0000".
Proof. reflexivity. Qed.

Example order_query_statuses :
  exists r q,
    dispatches (get_orders_by_query (VInt 10) None (Some datetime_min) VNone
                  (Some ["QUEUED"; "FILLED"]))
      sample_world r
    /\ dest r = "https://api.tdameritrade.com/v1/orders"
    /\ params r = Some q
    /\ q !! "status" = Some (VStr "QUEUED,FILLED")
    /\ q !! "maxResults" = Some (VInt 10).
Proof. do 2 eexists. repeat (split; [reflexivity|]). reflexivity. Qed.

(** ** Formatting of timestamps *)

Lemma forallb_seqZ (P : Z -> bool) (n : Z) :
  forallb P (seqZ 0 n) = true -> forall z, 0 <= z < n -> P z = true.
Proof.
  intros Hall z Hz. rewrite forallb_forall in Hall. apply Hall.
  apply list_elem_of_In, elem_of_seqZ. lia.
Qed.


Lemma fmt_0d_2 (z : Z) : 0 <= z < 100 -> fmt_0d 2 z = two_digits z.
Proof.
  intros Hz.
  apply String.eqb_eq.
  revert z Hz.
  apply (forallb_seqZ (fun z => String.eqb (fmt_0d 2 z) (two_digits z)) 100).
  vm_compute. reflexivity.
Qed.

Lemma fmt_0d_4 (z : Z) : 0 <= z < 10000 -> fmt_0d 4 z = four_digits z.
Proof.
  intros Hz.
  apply String.eqb_eq.
  revert z Hz.
  apply (forallb_seqZ (fun z => String.eqb (fmt_0d 4 z) (four_digits z)) 10000).
  vm_compute. reflexivity.
Qed.



Lemma days_in_month_le (y m : Z) : _days_in_month y m <= 31.
Proof.
  unfold _days_in_month.
  repeat match goal with |- context [if ?b then _ else _] => destruct b end; lia.
Qed.

Lemma valid_datetime_ranges (dt : datetime) :
  valid_datetime dt = true ->
  1 <= year dt <= 9999 /\ 1 <= month dt <= 12 /\ 1 <= day dt <= 31
  /\ 0 <= hour dt < 24 /\ 0 <= minute dt < 60 /\ 0 <= second dt < 60.
Proof.
  unfold valid_datetime. intros H.
  repeat match type of H with (_ && _) = true => apply andb_true_iff in H as [H ?] end.
  pose proof (days_in_month_le (year dt) (month dt)). lia.
Qed.

Lemma strftime_ymdHMS_fields (dt : datetime) :
  valid_datetime dt = true ->
  strftime_ymdHMS dt = decimal (year dt) +:+ iso_tail dt.
Proof.
  intros Hv. apply valid_datetime_ranges in Hv as (Hy & Hm & Hd & HH & HM & HS).
  unfold strftime_ymdHMS, iso_tail. rewrite !fmt_0d_2 by lia. reflexivity.
Qed.








(** ** The order query *)

Lemma make_order_query_eq (w : World) mr f t st sts :
  __make_order_query mr f t st sts w =
  (if negb (is_None st) && bool_decide (sts <> None)
   then Raises InvalidArgument_status
   else Returns (order_params mr (default datetime_min f)
                   (match t with Some d => d | None => naive (clock w (clock_reads w)) end)
                   st sts),
   match t with Some _ => w | None => tick w end).
Proof.
  unfold __make_order_query, order_params.
  destruct f, t; cbv [bind ret utcnow default tick];
    destruct (negb (is_None st) && bool_decide (sts <> None)); reflexivity.
Qed.

Lemma order_params_from mr lo hi st sts :
  order_params mr lo hi st sts !! "fromEnteredTime" = Some (VStr (__format_datetime lo)).
Proof. unfold order_params. lookup_through. reflexivity. Qed.

Lemma order_params_to mr lo hi st sts :
  order_params mr lo hi st sts !! "toEnteredTime" = Some (VStr (__format_datetime hi)).
Proof. unfold order_params. lookup_through. reflexivity. Qed.

Lemma status_pair_true st (sts : option (list string)) :
  st <> VNone -> sts <> None -> negb (is_None st) && bool_decide (sts <> None) = true.
Proof.
  intros Hst Hsts. rewrite (bool_decide_eq_true_2 _ Hsts).
  destruct st; try reflexivity. congruence.
Qed.

Lemma status_pair_false st (sts : option (list string)) :
  st = VNone \/ sts = None -> negb (is_None st) && bool_decide (sts <> None) = false.
Proof.
  intros [-> | ->]; [reflexivity|].
  rewrite bool_decide_eq_false_2 by congruence. apply andb_false_r.
Qed.

(** C3: an order query ([get_orders_by_path], [get_orders_by_query]) given
    both a status and a status list raises [InvalidArgument] and hands
    nothing to the session; given at most one of them it raises nothing and
    hands over its request. *)
Theorem order_query_status_exclusive (w : World) (account_id mr : PyVal)
    (f t : option datetime) (st : PyVal) (sts : option (list string)) :
  (st <> VNone -> sts <> None ->
     rejects_status_pair (get_orders_by_path account_id mr f t st sts) w
     /\ rejects_status_pair (get_orders_by_query mr f t st sts) w)
  /\ (st = VNone \/ sts = None ->
       completes (get_orders_by_path account_id mr f t st sts) w
       /\ completes (get_orders_by_query mr f t st sts) w).
Proof.
  split.
  - intros Hst Hsts.
    split; unfold rejects_status_pair, get_orders_by_path, get_orders_by_query, bind;
      rewrite make_order_query_eq, (status_pair_true _ _ Hst Hsts);
      eexists; (split; [reflexivity|]); destruct t; reflexivity.
  - intros Hone.
    split; unfold completes, get_orders_by_path, get_orders_by_query, bind;
      rewrite make_order_query_eq, (status_pair_false _ _ Hone);
      do 2 eexists; (split; [reflexivity|]); destruct t; reflexivity.
Qed.

Lemma order_query_status_exclusive_witness :
  rejects_status_pair
    (get_orders_by_query VNone None None (VStr "FILLED") (Some ["QUEUED"])) sample_world
  /\ completes
       (get_orders_by_path (VInt 42) VNone None None VNone (Some ["QUEUED"; "FILLED"]))
       sample_world.
Proof.
  split.
  - apply (proj1 (order_query_status_exclusive sample_world VNone VNone None None
                    (VStr "FILLED") (Some ["QUEUED"]))); discriminate.
  - apply (proj2 (order_query_status_exclusive sample_world (VInt 42) VNone None None
                    VNone (Some ["QUEUED"; "FILLED"]))). left. reflexivity.
Defined.

Lemma order_query_default_bounds (w : World) (path : string) mr st sts :
  st = VNone \/ sts = None ->
  exists w',
    queries_with_bounds
      (do q <- __make_order_query mr None None st sts; __get_request path (Given q))
      w (naive (clock w (clock_reads w))) w'
    /\ clock w' = clock w /\ clock_reads w' = S (clock_reads w).
Proof.
  intros Hone. unfold queries_with_bounds, bind.
  rewrite make_order_query_eq, (status_pair_false _ _ Hone).
  eexists. split.
  - do 2 eexists. split; [reflexivity|]. split; [reflexivity|].
    split; [apply order_params_from | apply order_params_to].
  - split; reflexivity.
Qed.

(** C5: an order query with no explicit time bounds carries
    [fromEnteredTime] = the formatted minimum timestamp (which is
    [1-01-01T00:00:00+0000], the year unpadded) and [toEnteredTime] = the
    formatted reading of the clock taken during the call; the next call
    takes the next reading, not the one of the call before. *)
Theorem order_query_default_time_range (w : World) (m : M Response)
    (account_id mr st : PyVal) (sts : option (list string)) :
  st = VNone \/ sts = None ->
  m = get_orders_by_path account_id mr None None st sts
  \/ m = get_orders_by_query mr None None st sts ->
  __format_datetime datetime_min = "1-01-01T00:00:00+0000"
  /\ exists w1 w2,
       queries_with_bounds m w (naive (clock w (clock_reads w))) w1
       /\ queries_with_bounds m w1 (naive (clock w (S (clock_reads w)))) w2.
Proof.
  intros Hone Hm. split; [reflexivity|].
  assert (Hgen : exists path, m =
            (do q <- __make_order_query mr None None st sts;
             __get_request path (Given q))).
  { destruct Hm as [-> | ->]; eexists; reflexivity. }
  destruct Hgen as [path ->].
  destruct (order_query_default_bounds w path mr st sts Hone) as (w1 & H1 & Hc & Hn).
  destruct (order_query_default_bounds w1 path mr st sts Hone) as (w2 & H2 & _ & _).
  exists w1, w2. split; [exact H1|].
  rewrite Hc, Hn in H2. exact H2.
Qed.

Lemma order_query_default_time_range_witness :
  exists w1 w2,
    queries_with_bounds (get_orders_by_query VNone None None VNone None)
      sample_world (mk_datetime 2020 3 1 12 0 0 0 None) w1
    /\ queries_with_bounds (get_orders_by_query VNone None None VNone None)
         w1 (mk_datetime 2020 3 1 12 0 1 0 None) w2.
Proof.
  apply (order_query_default_time_range sample_world _ VNone VNone VNone None).
  - left. reflexivity.
  - right. reflexivity.
Defined.

(** ** The price history *)

Lemma get_price_history_eq (w : World) symbol pt np ft fr sd ed ne :
  get_price_history symbol pt np ft fr sd ed ne w =
  match bound_millis (local_utcoffset w) sd with
  | Raises e => (Raises e, w)
  | Returns s =>
      match bound_millis (local_utcoffset w) ed with
      | Raises e => (Raises e, w)
      | Returns e' =>
          let r :=
            mk_request GET
              ("https://api.tdameritrade.com" +:+
               ("/v1/marketdata/" +:+ py_str symbol +:+ "/pricehistory"))
              (Some (price_params (api_key (self w)) symbol pt np ft fr s e' ne)) None in
          (Returns (response_to r), sent w r)
      end
  end.
Proof.
  cbv [get_price_history bind ret get_self get_local_utcoffset of_outcome
       __get_request session_call bound_millis price_params sent].
  destruct sd as [d1|], ed as [d2|];
    try destruct (__datetime_as_millis (local_utcoffset w) d1);
    try destruct (__datetime_as_millis (local_utcoffset w) d2);
    reflexivity.
Qed.

Ltac price_history_cases :=
  cbv [invoke on_request]; rewrite ?get_price_history_eq;
  repeat match goal with
         | |- context [bound_millis ?z ?o] => destruct (bound_millis z o)
         end.

(** An aware bound, or none, always converts. *)
Lemma bound_millis_aware (zone : Z -> Z) (o : option datetime) :
  (forall d, o = Some d -> utcoffset d <> None) ->
  exists ms, bound_millis zone o = Returns ms.
Proof.
  destruct o as [d|]; [|intros _; eexists; reflexivity].
  intros Haware. specialize (Haware d eq_refl).
  unfold bound_millis, __datetime_as_millis, timestamp.
  destruct (utcoffset d); [eexists; reflexivity | congruence].
Qed.

Lemma price_params_apikey key symbol pt np ft fr sd ed ne :
  price_params key symbol pt np ft fr sd ed ne !! "apikey" = Some key.
Proof. unfold price_params. lookup_through. reflexivity. Qed.

(** ** get_order against its siblings *)

(** C9: for every [order_id] and [account_id], [get_order] raises an error,
    because it calls the GET helper without the query mapping the helper
    requires, and hands nothing to the session; the sibling single-item
    lookups [cancel_order] and [get_saved_order] hand their request to the
    session. *)
Theorem get_order_raises_siblings_dispatch (w : World) (order_id account_id : PyVal) :
  (exists msg, get_order order_id account_id w = (Raises (TypeError msg), w))
  /\ dispatches (cancel_order order_id account_id) w
       (mk_request DELETE
          ("https://api.tdameritrade.com" +:+
           ("/v1/accounts/" +:+ py_str account_id +:+ "/orders/" +:+ py_str order_id))
          None None)
  /\ dispatches (get_saved_order account_id order_id) w
       (mk_request GET
          ("https://api.tdameritrade.com" +:+
           ("/v1/accounts/" +:+ py_str account_id +:+ "/savedorders/" +:+ py_str order_id))
          (Some ∅) None).
Proof.
  split; [|split].
  - eexists. reflexivity.
  - reflexivity.
  - reflexivity.
Qed.

(** ** get_instrument *)

(** C6: a CUSIP that is not a string makes [get_instrument] raise
    [InvalidArgument] with nothing handed to the session; a string CUSIP [c]
    gives a GET of [/v1/instruments/c] whose query mapping is exactly
    [{apikey: api_key}], leading zeroes kept. *)
Theorem get_instrument_cusip (w : World) (cusip : PyVal) :
  (isinstance_str cusip = false ->
     get_instrument cusip w = (Raises InvalidArgument_cusip, w))
  /\ (forall c, cusip = VStr c ->
        dispatches (get_instrument cusip) w
          (mk_request GET
             ("https://api.tdameritrade.com" +:+ ("/v1/instruments/" +:+ c))
             (Some {[ "apikey" := api_key (self w) ]}) None))
  /\ (cusip = VStr "00123" ->
        exists r, dispatches (get_instrument cusip) w r
          /\ dest r = "https://api.tdameritrade.com/v1/instruments/00123").
Proof.
  split; [|split].
  - intros Hns. unfold get_instrument. rewrite Hns. reflexivity.
  - intros c ->. run. rewrite insert_empty. reflexivity.
  - intros ->. run. eexists. split; reflexivity.
Qed.

Lemma get_instrument_cusip_witness :
  get_instrument (VInt 123) sample_world = (Raises InvalidArgument_cusip, sample_world)
  /\ dispatches (get_instrument (VStr "00123")) sample_world
       (mk_request GET "https://api.tdameritrade.com/v1/instruments/00123"
          (Some {[ "apikey" := VStr "KEY" ]}) None).
Proof.
  split.
  - apply (proj1 (get_instrument_cusip sample_world (VInt 123))). reflexivity.
  - apply (proj1 (proj2 (get_instrument_cusip sample_world (VStr "00123"))) "00123").
    reflexivity.
Defined.

(** ** Account-scoped operations on a client without an account identifier *)

(** On a client constructed with no account identifier, [cancel_order]
    does not raise [InvalidState]: it hands its DELETE to the session. *)
Lemma account_scoped_without_id_counterexample :
  account_id (self sample_world) = VNone
  /\ account_scoped (Call_cancel_order (VInt 7) (VInt 42)) = true
  /\ dispatches (invoke (Call_cancel_order (VInt 7) (VInt 42))) sample_world
       (mk_request DELETE "https://api.tdameritrade.com/v1/accounts/42/orders/7"
          None None)
  /\ fst (invoke (Call_cancel_order (VInt 7) (VInt 42)) sample_world)
     <> Raises InvalidState.
Proof.
  split; [reflexivity|]. split; [reflexivity|]. split; [reflexivity|].
  discriminate.
Qed.

(** C2, as the code has it: on a client constructed with no account
    identifier the internal accessor [__account_id] raises [InvalidState],
    but no operation calls it. Each account-scoped operation takes the
    account identifier as an argument and either hands its request to the
    session or raises an error that is not [InvalidState]. *)
Theorem account_scoped_ignores_stored_account (w : World) (c : call) :
  account_id (self w) = VNone ->
  account_scoped c = true ->
  __account_id w = (Raises InvalidState, w)
  /\ (completes (invoke c) w
      \/ exists e w', invoke c w = (Raises e, w') /\ e <> InvalidState
                      /\ session (self w') = session (self w)).
Proof.
  intros Hnone Hc. split.
  - unfold __account_id, bind, get_self. cbn. rewrite Hnone. reflexivity.
  - destruct c; try discriminate Hc;
      try (left; do 2 eexists; split; reflexivity).
    + right. do 2 eexists. split; [reflexivity|]. split; [discriminate|reflexivity].
    + cbv [invoke get_orders_by_path completes bind].
      rewrite make_order_query_eq.
      destruct (negb (is_None status) && bool_decide (statuses <> None)).
      * right. do 2 eexists. split; [reflexivity|].
        split; [discriminate|]. destruct to_entered_datetime; reflexivity.
      * left. do 2 eexists. split; [reflexivity|].
        destruct to_entered_datetime; reflexivity.
Qed.

Lemma account_scoped_ignores_stored_account_witness :
  __account_id sample_world = (Raises InvalidState, sample_world)
  /\ (completes (invoke (Call_place_order (VInt 42) (JObj []))) sample_world
      \/ exists e w', invoke (Call_place_order (VInt 42) (JObj [])) sample_world
                        = (Raises e, w')
                      /\ e <> InvalidState
                      /\ session (self w') = session (self sample_world)).
Proof.
  apply (account_scoped_ignores_stored_account sample_world
           (Call_place_order (VInt 42) (JObj []))); reflexivity.
Defined.

(** ** Optional parameters of the option chain *)

(** C1, at the input where the code departs from it: with
    [days_to_expiration] left unset the query mapping of [get_option_chain]
    holds [daysToExpiration] with the value [None], and with
    [days_to_expiration] given the key is missing. *)
Theorem get_option_chain_days_to_expiration_inverted (w : World) (symbol : PyVal) (n : Z) :
  (exists r q, dispatches (get_option_chain_default symbol) w r
     /\ params r = Some q /\ q !! "daysToExpiration" = Some VNone)
  /\ (exists r q,
        dispatches
          (get_option_chain symbol (VStr "ALL") VNone (VBool false) VNone VNone VNone
             (VStr "ALL") None None VNone VNone VNone (VInt n) (VStr "ALL") (VStr "ALL"))
          w r
        /\ params r = Some q /\ q !! "daysToExpiration" = None).
Proof.
  split; run; cbv [is_None]; do 2 eexists;
    (split; [reflexivity|]); (split; [reflexivity|]);
    lookup_through; reflexivity.
Qed.

(** ** The apikey entry *)

(** C10: every market-data and instrument operation sends [apikey] mapped
    to the key the client was constructed with (unless it raises before
    any request: [get_instrument] on a CUSIP that is not a string,
    [get_price_history] on a bound whose conversion raises); no order,
    saved-order or account operation sends an [apikey] entry; and no
    operation changes the stored key. *)
Theorem apikey_only_on_market_data (w : World) (c : call) :
  api_key (self (snd (invoke c w))) = api_key (self w)
  /\ (market_data c = true ->
        sends_apikey c w
        \/ (exists cusip, c = Call_get_instrument cusip
             /\ isinstance_str cusip = false
             /\ invoke c w = (Raises InvalidArgument_cusip, w))
        \/ (exists sy pt np ft fr sd ed ne e,
             c = Call_get_price_history sy pt np ft fr sd ed ne
             /\ bound_rejected (local_utcoffset w) sd ed e
             /\ invoke c w = (Raises e, w)))
  /\ (market_data c = false ->
        exists new,
          session (self (snd (invoke c w))) = (session (self w) ++ new)%list
          /\ no_apikey new).
Proof.
  assert (Hnil : forall l : list Request, l = (l ++ [])%list)
    by (intros l; rewrite app_nil_r; reflexivity).
  assert (Hone : forall r : Request,
             (forall q, params r = Some q -> q !! "apikey" = None) -> no_apikey [r])
    by (intros r Hr; constructor; [exact Hr | constructor]).
  split; [|split].
  - destruct c; try reflexivity.
    + cbv [invoke get_orders_by_path bind]. rewrite make_order_query_eq.
      destruct (negb (is_None status) && bool_decide (statuses <> None));
        destruct to_entered_datetime; reflexivity.
    + cbv [invoke get_orders_by_query bind]. rewrite make_order_query_eq.
      destruct (negb (is_None status) && bool_decide (statuses <> None));
        destruct to_entered_datetime; reflexivity.
    + cbv [invoke get_instrument]. destruct (negb (isinstance_str cusip)); reflexivity.
    + price_history_cases; reflexivity.
  - intros Hc. destruct c; try discriminate Hc.
    7: { cbv [invoke sends_apikey]. rewrite get_price_history_eq.
         destruct (bound_millis (local_utcoffset w) start_date) as [s|e] eqn:Hs.
         - destruct (bound_millis (local_utcoffset w) end_date) as [e'|e] eqn:He.
           + left. do 3 eexists. repeat (split; [reflexivity|]).
             apply price_params_apikey.
           + right. right. do 9 eexists. split; [reflexivity|].
             split; [right; eauto | reflexivity].
         - right. right. do 9 eexists. split; [reflexivity|].
           split; [left; exact Hs | reflexivity]. }
    2: { destruct cusip as [| b | z | s].
         1-3: right; left; eexists; repeat (split; [reflexivity|]); reflexivity.
         left. unfold sends_apikey. run. do 3 eexists.
         repeat (split; [reflexivity|]). lookup_through. reflexivity. }
    all: left; unfold sends_apikey; run; do 3 eexists;
      repeat (split; [reflexivity|]); lookup_through; reflexivity.
  - intros Hc. destruct c; try discriminate Hc.
    all: try (eexists [_]; split; [reflexivity|]; apply Hone; cbn;
              intros q Hq; try discriminate Hq; injection Hq as <-;
              lookup_through; reflexivity).
    + exists []. split; [apply Hnil | constructor].
    + cbv [invoke get_orders_by_path bind]. rewrite make_order_query_eq.
      destruct (negb (is_None status) && bool_decide (statuses <> None)),
        to_entered_datetime.
      1-2: exists []; split; [apply Hnil | constructor].
      all: eexists [_]; split; [reflexivity|]; apply Hone; cbn;
        intros q Hq; injection Hq as <-;
        unfold order_params; lookup_through; reflexivity.
    + cbv [invoke get_orders_by_query bind]. rewrite make_order_query_eq.
      destruct (negb (is_None status) && bool_decide (statuses <> None)),
        to_entered_datetime.
      1-2: exists []; split; [apply Hnil | constructor].
      all: eexists [_]; split; [reflexivity|]; apply Hone; cbn;
        intros q Hq; injection Hq as <-;
        unfold order_params; lookup_through; reflexivity.
Qed.

Lemma apikey_only_on_market_data_witness :
  sends_apikey (Call_get_quote (VStr "AAPL")) sample_world.
Proof.
  destruct (proj1 (proj2 (apikey_only_on_market_data sample_world
                            (Call_get_quote (VStr "AAPL")))) eq_refl)
    as [Hsends | [(cusip & Hc & _) | (sy & pt & np & ft & fr & sd & ed & ne & e & Hc & _)]].
  - exact Hsends.
  - discriminate Hc.
  - discriminate Hc.
Defined.

(** ** List-valued parameters *)

Lemma split_on_free (c : ascii) (x : string) :
  free_of c x = true -> split_on c x = [x].
Proof.
  induction x as [|a x IH]; [reflexivity|].
  cbn [free_of split_on]. intros [Ha Hx]%andb_true_iff.
  apply negb_true_iff in Ha. rewrite Ha, (IH Hx). reflexivity.
Qed.

Lemma split_on_app (c : ascii) (x rest : string) :
  free_of c x = true ->
  split_on c (x +:+ String c rest) = x :: split_on c rest.
Proof.
  induction x as [|a x IH].
  - intros _. change ("" +:+ String c rest) with (String c rest).
    cbn [split_on]. rewrite Ascii.eqb_refl. reflexivity.
  - change (String a x +:+ String c rest) with (String a (x +:+ String c rest)).
    cbn [free_of split_on]. intros [Ha Hx]%andb_true_iff.
    apply negb_true_iff in Ha. rewrite Ha, (IH Hx). reflexivity.
Qed.

Lemma split_join (c : ascii) (l : list string) :
  l <> [] -> forallb (free_of c) l = true ->
  split_on c (join (String c "") l) = l.
Proof.
  induction l as [|x l IH]; [congruence|].
  intros _ [Hx Hl]%andb_true_iff.
  destruct l as [|y l].
  - cbn. apply split_on_free, Hx.
  - change (join (String c "") (x :: y :: l))
      with (x +:+ String c "" +:+ join (String c "") (y :: l)).
    change (String c "" +:+ join (String c "") (y :: l))
      with (String c (join (String c "") (y :: l))).
    rewrite split_on_app by exact Hx.
    rewrite IH; [reflexivity | discriminate | exact Hl].
Qed.

(** C7: a list-valued parameter [[a, b, c]] (status list, market list,
    symbol list, field list) reaches the query as the one string [a,b,c],
    elements in the caller's order; [get_quotes(["AAPL","MSFT"])] builds
    [/v1/marketdata/quotes] with [{apikey: key, symbol: "AAPL,MSFT"}]. *)
Theorem list_parameters_comma_joined (w : World) :
  (forall a b c : string, join "," [a; b; c] = a +:+ "," +:+ b +:+ "," +:+ c)
  /\ (forall l : list string,
        l <> [] -> forallb (free_of ",") l = true -> split_on "," (join "," l) = l)
  /\ (forall symbols,
        dispatches (get_quotes symbols) w
          (mk_request GET "https://api.tdameritrade.com/v1/marketdata/quotes"
             (Some (<["symbol" := VStr (join "," symbols)]>
                      {[ "apikey" := api_key (self w) ]}))
             None))
  /\ dispatches (get_quotes ["AAPL"; "MSFT"]) w
       (mk_request GET "https://api.tdameritrade.com/v1/marketdata/quotes"
          (Some (<["symbol" := VStr "AAPL,MSFT"]> {[ "apikey" := api_key (self w) ]}))
          None)
  /\ (forall markets date,
        sends_string (get_hours_for_multiple_markets markets date) w
          "markets" (join "," markets))
  /\ (forall account_id mr f t x l,
        sends_string (get_orders_by_path account_id mr f t VNone (Some (x :: l))) w
          "status" (join "," (x :: l))
        /\ sends_string (get_orders_by_query mr f t VNone (Some (x :: l))) w
             "status" (join "," (x :: l)))
  /\ (forall account_id x l,
        sends_string (get_account account_id (Some (x :: l))) w
          "fields" (join "," (x :: l))
        /\ sends_string (get_accounts (Some (x :: l))) w
             "fields" (join "," (x :: l))).
Proof.
  split; [reflexivity|].
  split; [intros l; apply split_join|].
  split; [intros symbols; run; rewrite insert_empty; reflexivity|].
  split; [run; rewrite insert_empty; reflexivity|].
  split; [|split].
  - intros markets date. unfold sends_string. run.
    do 3 eexists. repeat (split; [reflexivity|]). lookup_through. reflexivity.
  - intros account_id mr f t x l.
    split; unfold sends_string, get_orders_by_path, get_orders_by_query, bind;
      rewrite make_order_query_eq; destruct t; cbn [negb is_None andb];
      do 3 eexists; repeat (split; [reflexivity|]);
      unfold order_params; lookup_through; reflexivity.
  - intros account_id x l.
    split; unfold sends_string; run; do 3 eexists;
      repeat (split; [reflexivity|]); lookup_through; reflexivity.
Qed.

Lemma list_parameters_comma_joined_witness :
  split_on "," (join "," ["QUEUED"; "FILLED"; "CANCELED"])
  = ["QUEUED"; "FILLED"; "CANCELED"].
Proof.
  apply (proj1 (proj2 (list_parameters_comma_joined sample_world))).
  - discriminate.
  - reflexivity.
Defined.

(** ** Exact arithmetic of the millisecond conversion on whole seconds

    The floating-point steps of [int(dt.timestamp() * 1000)] lose nothing
    when the instant is a whole number of seconds: the quotient by a
    million and the product by a thousand are then exactly representable,
    and rounding with an exact location only shifts zero bits out. *)

Lemma iter_pos_nat {A} (f : A -> A) (p : positive) (x : A) :
  SpecFloat.iter_pos f p x = Nat.iter (Pos.to_nat p) f x.
Proof.
  revert x. induction p as [p IH|p IH|]; intros x; cbn [SpecFloat.iter_pos].
  - rewrite !IH, Pos2Nat.inj_xI.
    replace (S (2 * Pos.to_nat p)) with (Pos.to_nat p + (Pos.to_nat p + 1))%nat by lia.
    rewrite !Nat.iter_add. reflexivity.
  - rewrite !IH, Pos2Nat.inj_xO.
    replace (2 * Pos.to_nat p)%nat with (Pos.to_nat p + Pos.to_nat p)%nat by lia.
    rewrite Nat.iter_add. reflexivity.
  - reflexivity.
Qed.

Lemma shr_1_shiftl (k : nat) (p : positive) :
  Nat.iter k shr_1 (Build_shr_record (Zpos (Pos.shiftl_nat p k)) false false)
  = Build_shr_record (Zpos p) false false.
Proof.
  induction k as [|k IH]; [reflexivity|].
  rewrite Nat.iter_succ_r.
  change (Pos.shiftl_nat p (S k)) with (xO (Pos.shiftl_nat p k)).
  cbn [shr_1 orb]. exact IH.
Qed.

Lemma shiftl_nat_Z (p : positive) (k : nat) :
  Zpos (Pos.shiftl_nat p k) = Zpos p * 2 ^ Z.of_nat k.
Proof.
  induction k as [|k IH]; [cbn; lia|].
  rewrite Nat2Z.inj_succ, Z.pow_succ_r by lia.
  change (Pos.shiftl_nat p (S k)) with (xO (Pos.shiftl_nat p k)).
  rewrite Pos2Z.inj_xO, IH. lia.
Qed.

Lemma digits2_shiftl (p : positive) (k : nat) :
  Zpos (digits2_pos (Pos.shiftl_nat p k)) = Zpos (digits2_pos p) + Z.of_nat k.
Proof.
  induction k as [|k IH]; [cbn; lia|].
  change (Pos.shiftl_nat p (S k)) with (xO (Pos.shiftl_nat p k)).
  cbn [digits2_pos]. rewrite Pos2Z.inj_succ, IH. lia.
Qed.

Lemma digits2_bounds (p : positive) :
  2 ^ (Zpos (digits2_pos p) - 1) <= Zpos p < 2 ^ Zpos (digits2_pos p).
Proof.
  induction p as [p IH|p IH|]; cbn [digits2_pos]; [| |cbn; lia].
  - rewrite Pos2Z.inj_succ, Z.pow_succ_r by lia.
    replace (Z.succ (Zpos (digits2_pos p)) - 1) with (Z.succ (Zpos (digits2_pos p) - 1)) by lia.
    rewrite Z.pow_succ_r by lia. lia.
  - rewrite Pos2Z.inj_succ, Z.pow_succ_r by lia.
    replace (Z.succ (Zpos (digits2_pos p)) - 1) with (Z.succ (Zpos (digits2_pos p) - 1)) by lia.
    rewrite Z.pow_succ_r by lia. lia.
Qed.

Lemma digits2_le (p : positive) (d : Z) :
  0 <= d -> Zpos p < 2 ^ d -> Zpos (digits2_pos p) <= d.
Proof.
  intros Hd Hp. destruct (digits2_bounds p) as [Hlo _].
  destruct (Z_le_gt_dec (Zpos (digits2_pos p)) d) as [|Hgt]; [assumption|].
  assert (2 ^ d <= 2 ^ (Zpos (digits2_pos p) - 1)) by (apply Z.pow_le_mono_r; lia).
  lia.
Qed.

Lemma shiftl_nat_add (p : positive) (a b : nat) :
  Pos.shiftl_nat p (b + a) = Pos.shiftl_nat (Pos.shiftl_nat p a) b.
Proof.
  induction b as [|b IH]; [reflexivity|].
  change (Pos.shiftl_nat p (S (b + a)) = xO (Pos.shiftl_nat (Pos.shiftl_nat p a) b)).
  change (Pos.shiftl_nat p (S (b + a))) with (xO (Pos.shiftl_nat p (b + a))).
  rewrite IH. reflexivity.
Qed.

Lemma shr_fexp_id (m : positive) (e : Z) :
  -1000 <= e -> Zpos (digits2_pos m) <= 53 ->
  shr_fexp 53 1024 (Zpos m) e loc_Exact = (Build_shr_record (Zpos m) false false, e).
Proof.
  intros He Hd. unfold shr_fexp, shr. cbn [Zdigits2 shr_record_of_loc].
  destruct (fexp 53 1024 (Zpos (digits2_pos m) + e) - e) eqn:Hk; try reflexivity.
  exfalso. unfold fexp, emin in Hk. lia.
Qed.

Lemma shr_fexp_exact (pv : positive) (j : nat) :
  Zpos pv < 2 ^ 53 -> Z.of_nat j <= 1000 ->
  exists m e,
    shr_fexp 53 1024 (Zpos (Pos.shiftl_nat pv j)) (- Z.of_nat j) loc_Exact
    = (Build_shr_record (Zpos m) false false, e)
    /\ - Z.of_nat j <= e <= 0
    /\ Zpos m = Zpos pv * 2 ^ (- e)
    /\ Zpos (digits2_pos m) <= 53.
Proof.
  intros Hv Hj.
  pose proof (digits2_le pv 53 ltac:(lia) Hv) as Hd.
  pose proof (Pos2Z.is_pos (digits2_pos pv)) as Hd0.
  destruct (Z_le_gt_dec (Zpos (digits2_pos pv) + Z.of_nat j) 53) as [Hsmall|Hbig].
  - exists (Pos.shiftl_nat pv j), (- Z.of_nat j).
    split; [|split; [lia|split]].
    + apply shr_fexp_id; [lia | rewrite digits2_shiftl; lia].
    + rewrite shiftl_nat_Z, Z.opp_involutive. reflexivity.
    + rewrite digits2_shiftl. lia.
  - set (j' := Z.to_nat (53 - Zpos (digits2_pos pv))).
    set (k := (j - j')%nat).
    assert (Hjk : j = (k + j')%nat) by (subst k j'; lia).
    exists (Pos.shiftl_nat pv j'), (- Z.of_nat j').
    split; [|split; [lia|split]].
    + unfold shr_fexp, shr. cbn [Zdigits2 shr_record_of_loc].
      rewrite digits2_shiftl.
      replace (fexp 53 1024 (Zpos (digits2_pos pv) + Z.of_nat j + - Z.of_nat j)
               - - Z.of_nat j) with (Z.of_nat k)
        by (unfold fexp, emin; subst k j'; lia).
      destruct (Z.of_nat k) as [|kp|kp] eqn:Hk; [subst k j'; lia| |lia].
      rewrite iter_pos_nat.
      replace (Pos.to_nat kp) with k by lia.
      rewrite Hjk at 1. rewrite shiftl_nat_add, shr_1_shiftl.
      f_equal. subst k j'. lia.
    + rewrite shiftl_nat_Z, Z.opp_involutive. reflexivity.
    + rewrite digits2_shiftl. subst j'. lia.
Qed.

Lemma round_exact (s : bool) (P pv : positive) (E : Z) :
  -1000 <= E <= 0 -> Zpos pv < 2 ^ 53 -> Zpos P = Zpos pv * 2 ^ (- E) ->
  exists m e,
    binary_round_aux 53 1024 s (Zpos P) E loc_Exact = S754_finite s m e
    /\ E <= e <= 0 /\ Zpos m = Zpos pv * 2 ^ (- e).
Proof.
  intros HE Hv HP.
  assert (HPj : P = Pos.shiftl_nat pv (Z.to_nat (- E))).
  { apply Pos2Z.inj. rewrite shiftl_nat_Z, Z2Nat.id by lia. exact HP. }
  destruct (shr_fexp_exact pv (Z.to_nat (- E)) Hv ltac:(lia))
    as (m & e & Hshr & He & Hm & Hd).
  rewrite Z2Nat.id in Hshr, He by lia. rewrite Z.opp_involutive in Hshr.
  exists m, e. split; [|split; [lia | exact Hm]].
  unfold binary_round_aux. rewrite HPj, Hshr.
  cbn [shr_m loc_of_shr_record round_nearest_even].
  rewrite shr_fexp_id by lia. cbn [shr_m].
  destruct (Z.leb_spec e (1024 - 53)); [reflexivity | lia].
Qed.

Lemma int_of_float_exact (s : bool) (m pv : positive) (e : Z) :
  e <= 0 -> Zpos m = Zpos pv * 2 ^ (- e) ->
  int_of_float (S754_finite s m e) = if s then - Zpos pv else Zpos pv.
Proof.
  intros He Hm. unfold int_of_float.
  assert (Ha : (if 0 <=? e then Zpos m * 2 ^ e else Zpos m / 2 ^ (- e)) = Zpos pv).
  { destruct (Z.leb_spec 0 e).
    - replace e with 0 in * by lia. cbn in Hm |- *. lia.
    - rewrite Hm. apply Z.div_mul. apply Z.pow_nonzero; lia. }
  rewrite Ha. reflexivity.
Qed.

Lemma float_1000 : float_of_int 1000 = S754_finite false 8796093022208000 (-43).
Proof. vm_compute. reflexivity. Qed.

Lemma mul_1000_exact (s : bool) (m pv : positive) (e : Z) :
  -900 <= e <= 0 -> Zpos m = Zpos pv * 2 ^ (- e) -> Zpos pv < 2 ^ 43 ->
  int_of_float (SFmul 53 1024 (S754_finite s m e) (float_of_int 1000))
  = if s then - (1000 * Zpos pv) else 1000 * Zpos pv.
Proof.
  intros He Hm Hv. rewrite float_1000. cbn [SFmul].
  rewrite xorb_false_r.
  destruct (round_exact s (m * 8796093022208000) (1000 * pv) (e + -43))
    as (m' & e' & Hr & He' & Hm'); [lia | lia | |].
  - rewrite !Pos2Z.inj_mul, Hm.
    replace (- (e + -43)) with (- e + 43) by lia.
    rewrite Z.pow_add_r by lia. change (2 ^ 43) with 8796093022208. lia.
  - rewrite Hr. rewrite (int_of_float_exact s m' (1000 * pv) e') by (lia || exact Hm').
    rewrite Pos2Z.inj_mul. reflexivity.
Qed.

Lemma truediv_million_exact (s : bool) (pn : positive) :
  Zpos pn < 2 ^ 43 ->
  exists m e,
    SFdiv 53 1024 (S754_finite s (pn * 1000000) 0) (S754_finite false 1000000 0)
    = S754_finite s m e
    /\ -900 <= e <= 0 /\ Zpos m = Zpos pn * 2 ^ (- e).
Proof.
  intros Hv. cbn [SFdiv]. rewrite xorb_false_r.
  unfold SFdiv_core_binary. cbn [Zdigits2].
  change (Zpos (digits2_pos 1000000)) with 20.
  set (d1 := Zpos (digits2_pos (pn * 1000000))).
  assert (Hd1 : 20 <= d1 <= 63).
  { subst d1. split.
    - destruct (digits2_bounds (pn * 1000000)) as [_ Hhi].
      rewrite Pos2Z.inj_mul in Hhi.
      destruct (Z_le_gt_dec 20 (Zpos (digits2_pos (pn * 1000000)))); [assumption|].
      assert (2 ^ Zpos (digits2_pos (pn * 1000000)) <= 2 ^ 19)
        by (apply Z.pow_le_mono_r; lia).
      change (2 ^ 19) with 524288 in *. lia.
    - apply digits2_le; [lia|]. rewrite Pos2Z.inj_mul.
      change (2 ^ 63) with (2 ^ 43 * 2 ^ 20). change (2 ^ 20) with 1048576. lia. }
  replace (Z.min (fexp 53 1024 (d1 + 0 - (20 + 0))) (0 - 0)) with (d1 - 73)
    by (unfold fexp, emin; lia).
  replace (0 - 0 - (d1 - 73)) with (73 - d1) by lia.
  destruct (73 - d1) as [|sp|sp] eqn:Hs; [lia| |lia].
  rewrite Z.shiftl_mul_pow2 by lia.
  assert (Hq : Z.div_eucl (Zpos (pn * 1000000) * 2 ^ Zpos sp) 1000000
               = (Zpos pn * 2 ^ Zpos sp, 0)).
  { rewrite Pos2Z.inj_mul.
    replace (Zpos pn * 1000000 * 2 ^ Zpos sp) with (Zpos pn * 2 ^ Zpos sp * 1000000) by lia.
    pose proof (Z.div_mul (Zpos pn * 2 ^ Zpos sp) 1000000 ltac:(lia)) as Hdiv.
    pose proof (Z.mod_mul (Zpos pn * 2 ^ Zpos sp) 1000000 ltac:(lia)) as Hmod.
    unfold Z.div, Z.modulo in Hdiv, Hmod.
    destruct (Z.div_eucl (Zpos pn * 2 ^ Zpos sp * 1000000) 1000000) as [q r].
    cbn in Hdiv, Hmod. subst. reflexivity. }
  change (Zpos 1000000) with 1000000. rewrite Hq.
  change (new_location 1000000 0) with loc_Exact.
  assert (Hpos : 0 < Zpos pn * 2 ^ Zpos sp) by (apply Z.mul_pos_pos; [lia | apply Z.pow_pos_nonneg; lia]).
  destruct (Zpos pn * 2 ^ Zpos sp) as [|P|P] eqn:HP; [lia| |lia].
  destruct (round_exact s P pn (d1 - 73)) as (m & e & Hr & He & Hm); [lia | lia | |].
  - rewrite <- HP. f_equal. f_equal. lia.
  - exists m, e. split; [exact Hr|]. split; [lia | exact Hm].
Qed.

(** For a whole number [n] of seconds, [int(float(n * 10**6 / 10**6) * 1000)]
    is exactly [1000 * n]. *)
Lemma millis_of_whole_seconds (n : Z) :
  - 2 ^ 43 < n < 2 ^ 43 ->
  int_of_float (SFmul 53 1024 (int_truediv (n * 1000000) 1000000) (float_of_int 1000))
  = 1000 * n.
Proof.
  intros Hn. destruct n as [|pn|pn].
  - vm_compute. reflexivity.
  - unfold int_truediv. change (Zpos pn * 1000000) with (Zpos (pn * 1000000)).
    destruct (truediv_million_exact false pn ltac:(lia)) as (m & e & -> & He & Hm).
    rewrite (mul_1000_exact false m pn e) by (lia || exact Hm). reflexivity.
  - unfold int_truediv. change (Zneg pn * 1000000) with (Zneg (pn * 1000000)).
    destruct (truediv_million_exact true pn ltac:(lia)) as (m & e & -> & He & Hm).
    rewrite (mul_1000_exact true m pn e) by (lia || exact Hm). lia.
Qed.

Lemma iter_xO_Z (p d : positive) : Zpos (Pos.iter xO p d) = Zpos p * 2 ^ Zpos d.
Proof.
  induction d as [|d IH] using Pos.peano_ind.
  - cbn. lia.
  - rewrite Pos.iter_succ, Pos2Z.inj_xO, IH, Pos2Z.inj_succ, Z.pow_succ_r by lia. lia.
Qed.

Lemma float_of_int_exact (s : bool) (pn : positive) :
  Zpos pn < 2 ^ 43 ->
  exists m e,
    binary_round 53 1024 s pn 0 = S754_finite s m e
    /\ -900 <= e <= 0 /\ Zpos m = Zpos pn * 2 ^ (- e).
Proof.
  intros Hv. unfold binary_round, shl_align.
  pose proof (digits2_le pn 43 ltac:(lia) Hv) as Hd.
  pose proof (Pos2Z.is_pos (digits2_pos pn)) as Hd0.
  replace (fexp 53 1024 (Zpos (digits2_pos pn) + 0) - 0)
    with (Zpos (digits2_pos pn) - 53) by (unfold fexp, emin; lia).
  replace (fexp 53 1024 (Zpos (digits2_pos pn) + 0))
    with (Zpos (digits2_pos pn) - 53) by (unfold fexp, emin; lia).
  destruct (Zpos (digits2_pos pn) - 53) as [|dp|dp] eqn:Hdp; [lia|lia|].
  destruct (round_exact s (Pos.iter xO pn dp) pn (Zneg dp)) as (m & e & Hr & He & Hm);
    [lia | lia | rewrite iter_xO_Z; reflexivity |].
  exists m, e. split; [exact Hr|]. split; [lia | exact Hm].
Qed.

(** [int(float(n) * 1000)] is exactly [1000 * n]. *)
Lemma millis_of_int_seconds (n : Z) :
  - 2 ^ 43 < n < 2 ^ 43 ->
  int_of_float (SFmul 53 1024
                  (SFadd 53 1024 (float_of_int n)
                     (SFdiv 53 1024 (float_of_int 0) (float_of_int 1000000)))
                  (float_of_int 1000))
  = 1000 * n.
Proof.
  intros Hn.
  change (SFdiv 53 1024 (float_of_int 0) (float_of_int 1000000)) with (S754_zero false).
  destruct n as [|pn|pn].
  - vm_compute. reflexivity.
  - unfold float_of_int at 1. cbn [binary_normalize].
    destruct (float_of_int_exact false pn ltac:(lia)) as (m & e & -> & He & Hm).
    cbn [SFadd].
    rewrite (mul_1000_exact false m pn e) by (lia || exact Hm). reflexivity.
  - unfold float_of_int at 1. cbn [binary_normalize].
    destruct (float_of_int_exact true pn ltac:(lia)) as (m & e & -> & He & Hm).
    cbn [SFadd].
    rewrite (mul_1000_exact true m pn e) by (lia || exact Hm). lia.
Qed.

Lemma wall_seconds_bound (dt : datetime) :
  valid_datetime dt = true -> - 2 ^ 40 < wall_seconds dt < 2 ^ 40.
Proof.
  intros Hv. apply valid_datetime_ranges in Hv as (Hy & Hm & Hd & HH & HM & HS).
  unfold wall_seconds, _ymd2ord, _days_before_year, _days_before_month.
  change (1970 - 1) with 1969.
  change (nth (Z.to_nat 1) [0; 0; 31; 59; 90; 120; 151; 181; 212; 243; 273; 304; 334] 0)
    with 0.
  assert (Hn : 0 <= nth (Z.to_nat (month dt))
                      [0; 0; 31; 59; 90; 120; 151; 181; 212; 243; 273; 304; 334] 0 <= 334).
  { generalize (Z.to_nat (month dt)) as n. intros n.
    do 13 (destruct n as [|n]; [cbn; lia|]). cbn. destruct n; lia. }
  assert (Hl : forall b : bool, 0 <= (if b then 1 else 0) <= 1) by (intros []; lia).
  pose proof (Hl ((2 <? month dt) && _is_leap (year dt))).
  pose proof (Hl ((2 <? 1) && _is_leap 1970)).
  change (2 ^ 40) with 1099511627776.
  Z.div_mod_to_equations. lia.
Qed.

Lemma valid_datetime_offset (dt : datetime) (off : Z) :
  valid_datetime dt = true -> utcoffset dt = Some off ->
  0 <= microsecond dt < 1000000 /\ -86400000000 < off < 86400000000.
Proof.
  unfold valid_datetime. intros H Hoff. rewrite Hoff in H.
  repeat match type of H with (_ && _) = true => apply andb_true_iff in H as [H ?] end.
  lia.
Qed.

Lemma datetime_as_millis_whole_second (zone : Z -> Z) (dt : datetime) (off : Z) :
  valid_datetime dt = true ->
  utcoffset dt = Some off ->
  (microsecond dt - off) mod 1000000 = 0 ->
  __datetime_as_millis zone dt
  = Returns (1000 * (wall_seconds dt + (microsecond dt - off) / 1000000)).
Proof.
  intros Hv Hoff Hwhole.
  pose proof (wall_seconds_bound dt Hv) as Hws.
  pose proof (valid_datetime_offset dt off Hv Hoff) as [Hus Ho].
  unfold __datetime_as_millis, timestamp. rewrite Hoff. f_equal.
  replace (wall_seconds dt * 1000000 + microsecond dt - off)
    with ((wall_seconds dt + (microsecond dt - off) / 1000000) * 1000000)
    by (Z.div_mod_to_equations; lia).
  apply millis_of_whole_seconds.
  change (2 ^ 40) with 1099511627776 in Hws. change (2 ^ 43) with 8796093022208.
  Z.div_mod_to_equations. lia.
Qed.

Lemma datetime_as_millis_naive_whole_second (zone : Z -> Z) (dt : datetime) (u : Z) :
  utcoffset dt = None ->
  microsecond dt = 0 ->
  local_to_seconds zone dt = Returns u ->
  - 2 ^ 43 < u - epoch_seconds < 2 ^ 43 ->
  __datetime_as_millis zone dt = Returns (1000 * (u - epoch_seconds)).
Proof.
  intros Hnaive Hus Hloc Hu.
  unfold __datetime_as_millis, timestamp. rewrite Hnaive, Hloc, Hus. f_equal.
  apply millis_of_int_seconds, Hu.
Qed.

Lemma price_params_bounds key symbol pt np ft fr (sd ed : option Z) ne :
  price_params key symbol pt np ft fr sd ed ne !! "startDate" = VInt <$> sd
  /\ price_params key symbol pt np ft fr sd ed ne !! "endDate" = VInt <$> ed.
Proof.
  unfold price_params. split; destruct sd, ed; lookup_through; reflexivity.
Qed.

Lemma get_price_history_rejected (w : World) symbol pt np ft fr sd ed ne e :
  bound_rejected (local_utcoffset w) sd ed e ->
  get_price_history symbol pt np ft fr sd ed ne w = (Raises e, w).
Proof.
  intros [Hs | (s & Hs & He)]; rewrite get_price_history_eq, Hs; [reflexivity|].
  rewrite He. reflexivity.
Qed.

(** ** The two timestamp forms *)

(** C8: the epoch-milliseconds form, [int(dt.timestamp() * 1000)], which on
    a whole second is exactly a thousand times the seconds since the
    epoch, is the value of [startDate] and [endDate] of the price history
    when they are given (when the conversion of a bound raises, so does
    [get_price_history], and nothing is sent); every other timestamp
    parameter ([fromEnteredTime], [toEnteredTime], [date], [fromDate],
    [toDate]) is the ISO string. *)
Theorem epoch_millis_only_for_price_history (w : World) :
  (forall dt off,
     valid_datetime dt = true ->
     utcoffset dt = Some off ->
     (microsecond dt - off) mod 1000000 = 0 ->
     __datetime_as_millis (local_utcoffset w) dt
     = Returns (1000 * (wall_seconds dt + (microsecond dt - off) / 1000000)))
  /\ (forall dt u,
        utcoffset dt = None ->
        microsecond dt = 0 ->
        local_to_seconds (local_utcoffset w) dt = Returns u ->
        - 2 ^ 43 < u - epoch_seconds < 2 ^ 43 ->
        __datetime_as_millis (local_utcoffset w) dt
        = Returns (1000 * (u - epoch_seconds)))
  /\ (forall symbol pt np ft fr sd ed ne s e,
        bound_millis (local_utcoffset w) sd = Returns s ->
        bound_millis (local_utcoffset w) ed = Returns e ->
        exists r q,
          dispatches (get_price_history symbol pt np ft fr sd ed ne) w r
          /\ params r = Some q
          /\ q !! "startDate" = VInt <$> s
          /\ q !! "endDate" = VInt <$> e)
  /\ (forall symbol pt np ft fr sd ed ne e,
        bound_rejected (local_utcoffset w) sd ed e ->
        get_price_history symbol pt np ft fr sd ed ne w = (Raises e, w))
  /\ (forall account_id mr f t st sts,
        st = VNone \/ sts = None ->
        forall m,
          m = get_orders_by_path account_id mr f t st sts
          \/ m = get_orders_by_query mr f t st sts ->
          sends_string m w "fromEnteredTime"
            (__format_datetime (default datetime_min f))
          /\ sends_string m w "toEnteredTime"
               (__format_datetime
                  (match t with Some d => d | None => naive (clock w (clock_reads w)) end)))
  /\ (forall markets market date,
        sends_string (get_hours_for_multiple_markets markets date) w
          "date" (__format_datetime date)
        /\ sends_string (get_hours_for_a_single_market market date) w
             "date" (__format_datetime date))
  /\ (forall sy ct sc iq sg iv sk sr fd td vo up ir de em ot,
        exists r q,
          dispatches (get_option_chain sy ct sc iq sg iv sk sr fd td vo up ir de em ot) w r
          /\ params r = Some q
          /\ q !! "fromDate" = (fun d => VStr (__format_datetime d)) <$> fd
          /\ q !! "toDate" = (fun d => VStr (__format_datetime d)) <$> td).
Proof.
  split; [intros dt off; apply datetime_as_millis_whole_second|].
  split; [intros dt u; apply datetime_as_millis_naive_whole_second|].
  split; [|split; [|split; [|split]]].
  - intros symbol pt np ft fr sd ed ne s e Hs He.
    unfold dispatches. rewrite get_price_history_eq, Hs, He.
    do 2 eexists. split; [reflexivity|]. split; [reflexivity|].
    apply price_params_bounds.
  - intros symbol pt np ft fr sd ed ne e. apply get_price_history_rejected.
  - intros account_id mr f t st sts Hone m Hm.
    assert (Hgen : exists path, m =
              (do q <- __make_order_query mr f t st sts;
               __get_request path (Given q)))
      by (destruct Hm as [-> | ->]; eexists; reflexivity).
    destruct Hgen as [path ->].
    split; unfold sends_string, bind;
      rewrite make_order_query_eq, (status_pair_false _ _ Hone); destruct t;
      do 3 eexists; repeat (split; [reflexivity|]);
      first [apply order_params_from | apply order_params_to].
  - intros markets market date.
    split; unfold sends_string; run; do 3 eexists;
      repeat (split; [reflexivity|]); lookup_through; reflexivity.
  - intros sy ct sc iq sg iv sk sr fd td vo up ir de em ot. run.
    do 2 eexists. repeat (split; [reflexivity|]).
    split; destruct fd, td; lookup_through; reflexivity.
Qed.

Lemma epoch_millis_only_for_price_history_witness :
  __datetime_as_millis (local_utcoffset sample_world)
    (mk_datetime 2020 2 29 14 5 9 0 (Some 3600000000))
  = Returns 1582981509000
  /\ exists r q,
       dispatches
         (get_price_history (VStr "AAPL") (VStr "day") VNone VNone (VInt 1)
            (Some (mk_datetime 2020 2 29 14 5 9 0 (Some 3600000000)))
            (Some (mk_datetime 2020 3 1 0 0 0 0 None)) (VBool false))
         sample_world r
       /\ params r = Some q
       /\ q !! "startDate" = Some (VInt 1582981509000)
       /\ q !! "endDate" = Some (VInt 1583020800000).
Proof.
  pose proof (epoch_millis_only_for_price_history sample_world)
    as (Haware & Hnaive & Hsent & _).
  assert (Hstart : __datetime_as_millis (local_utcoffset sample_world)
                     (mk_datetime 2020 2 29 14 5 9 0 (Some 3600000000))
                   = Returns 1582981509000)
    by (apply (Haware (mk_datetime 2020 2 29 14 5 9 0 (Some 3600000000)) 3600000000);
        reflexivity).
  assert (Hend : __datetime_as_millis (local_utcoffset sample_world)
                   (mk_datetime 2020 3 1 0 0 0 0 None)
                 = Returns 1583020800000).
  { apply (Hnaive (mk_datetime 2020 3 1 0 0 0 0 None) (1583020800 + epoch_seconds));
      [reflexivity | reflexivity | |].
    - vm_compute. reflexivity.
    - vm_compute. split; reflexivity. }
  split; [exact Hstart|].
  apply (Hsent _ _ _ _ _ _ _ _ (Some 1582981509000) (Some 1583020800000)).
  - unfold bound_millis. rewrite Hstart. reflexivity.
  - unfold bound_millis. rewrite Hend. reflexivity.
Defined.

(** * Further properties of the wrapper *)

(** Case analysis over the public methods: the order queries are reduced
    through [make_order_query_eq] and split on the status check and on the
    upper bound, [get_instrument] on the kind of its argument. *)
Ltac order_query_cases :=
  cbv [invoke get_orders_by_path get_orders_by_query bind on_request];
  rewrite ?make_order_query_eq;
  match goal with
  | |- context [negb (is_None ?st) && bool_decide (?sts <> None)] =>
      destruct (negb (is_None st) && bool_decide (sts <> None))
  end;
  match goal with
  | |- context [match ?t with Some _ => _ | None => tick _ end] => destruct t
  end.

(** ** The session log *)

(** A call that returns has handed exactly the request it answers to the
    session, after the earlier ones; a call that raises has handed over
    nothing. Neither changes the stored account identifier. *)
Theorem invoke_appends_one_request (c : call) (w : World) :
  account_id (self (snd (invoke c w))) = account_id (self w)
  /\ match fst (invoke c w) with
     | Returns (response_to r) =>
         session (self (snd (invoke c w))) = (session (self w) ++ [r])%list
     | Raises _ => session (self (snd (invoke c w))) = session (self w)
     end.
Proof.
  destruct c; try (split; reflexivity).
  - order_query_cases; split; reflexivity.
  - order_query_cases; split; reflexivity.
  - destruct cusip; split; reflexivity.
  - price_history_cases; split; reflexivity.
Qed.

(** Every request goes to the fixed host, under [/v1/]. *)
Theorem requests_go_to_api_host (c : call) (w : World) :
  on_request c w
    (fun r => String.prefix "https://api.tdameritrade.com/v1/" (dest r) = true).
Proof.
  destruct c; try reflexivity.
  - order_query_cases; reflexivity.
  - order_query_cases; reflexivity.
  - destruct cusip; reflexivity.
  - price_history_cases; try exact I; reflexivity.
Qed.

(** A GET always carries a query mapping (possibly empty) and no body, a
    POST or PUT the JSON body and no query mapping, a DELETE neither. *)
Theorem requests_well_shaped (c : call) (w : World) :
  on_request c w well_shaped.
Proof.
  destruct c; try (split; eauto; reflexivity).
  - order_query_cases; try exact I; split; eauto.
  - order_query_cases; try exact I; split; eauto.
  - destruct cusip; try exact I; split; eauto.
  - price_history_cases; try exact I; split; eauto.
Qed.

(** ** What a call depends on *)

(** The outcome of a call is determined by its arguments, the stored API
    key, the next reading of the clock and the local time zone: the stored
    account identifier, the earlier calls and what was printed play no
    part. *)
Theorem invoke_depends_only_on_key_clock_zone (c : call) (w1 w2 : World) :
  api_key (self w1) = api_key (self w2) ->
  clock w1 (clock_reads w1) = clock w2 (clock_reads w2) ->
  local_utcoffset w1 = local_utcoffset w2 ->
  fst (invoke c w1) = fst (invoke c w2).
Proof.
  destruct w1 as [[k1 s1 a1] c1 n1 z1 o1], w2 as [[k2 s2 a2] c2 n2 z2 o2].
  cbn [self api_key clock clock_reads local_utcoffset].
  intros -> Hclock ->.
  destruct c; try reflexivity.
  - cbv [invoke get_orders_by_path bind]. rewrite !make_order_query_eq.
    cbn [clock clock_reads]. rewrite Hclock.
    destruct (negb (is_None status) && bool_decide (statuses <> None)),
      to_entered_datetime; reflexivity.
  - cbv [invoke get_orders_by_query bind]. rewrite !make_order_query_eq.
    cbn [clock clock_reads]. rewrite Hclock.
    destruct (negb (is_None status) && bool_decide (statuses <> None)),
      to_entered_datetime; reflexivity.
  - destruct cusip; reflexivity.
  - cbv [invoke]. rewrite !get_price_history_eq. cbn [local_utcoffset self api_key].
    destruct (bound_millis z2 start_date); [|reflexivity].
    destruct (bound_millis z2 end_date); reflexivity.
Qed.

Lemma invoke_depends_only_on_key_clock_zone_witness :
  fst (invoke (Call_get_quote (VStr "AAPL")) sample_world)
  = fst (invoke (Call_get_quote (VStr "AAPL"))
           (mk_world (__init__ (VStr "KEY") [mk_request DELETE "x" None None] (VInt 42))
                     (clock sample_world) 0 (fun _ => 0) [∅])).
Proof.
  apply invoke_depends_only_on_key_clock_zone; reflexivity.
Defined.

(** ** Printing *)

(** The two market-hours methods print the query mapping they send, API
    key included; no other method prints. *)
Theorem stdout_only_from_market_hours (c : call) (w : World) :
  (market_hours c = true ->
     exists r q w',
       invoke c w = (Returns (response_to r), w')
       /\ params r = Some q
       /\ stdout w' = (stdout w ++ [q])%list
       /\ q !! "apikey" = Some (api_key (self w)))
  /\ (market_hours c = false -> stdout (snd (invoke c w)) = stdout w).
Proof.
  split; intros Hc; destruct c; try discriminate Hc; try reflexivity.
  - run. do 3 eexists. repeat (split; [reflexivity|]). lookup_through. reflexivity.
  - run. do 3 eexists. repeat (split; [reflexivity|]). lookup_through. reflexivity.
  - order_query_cases; reflexivity.
  - order_query_cases; reflexivity.
  - destruct cusip; reflexivity.
  - price_history_cases; reflexivity.
Qed.

Lemma stdout_only_from_market_hours_witness :
  exists r q w',
    invoke (Call_get_hours_for_a_single_market (VStr "EQUITY") datetime_min) sample_world
    = (Returns (response_to r), w')
    /\ params r = Some q
    /\ stdout w' = [q]
    /\ q !! "apikey" = Some (VStr "KEY").
Proof.
  apply (proj1 (stdout_only_from_market_hours
                  (Call_get_hours_for_a_single_market (VStr "EQUITY") datetime_min)
                  sample_world)).
  reflexivity.
Defined.

(** ** The clock *)

(** The clock is read once by an order query that has no upper bound, also
    when that query is then rejected for its status arguments, and by no
    other call. *)
Theorem clock_read_only_for_default_upper_bound (c : call) (w : World) :
  clock (snd (invoke c w)) = clock w
  /\ clock_reads (snd (invoke c w))
     = if reads_clock c then S (clock_reads w) else clock_reads w.
Proof.
  destruct c; try (split; reflexivity).
  - order_query_cases; split; reflexivity.
  - order_query_cases; split; reflexivity.
  - destruct cusip; split; reflexivity.
  - price_history_cases; split; reflexivity.
Qed.

(** ** The keys of the order query *)

(** The guard [if v is not None:], once [negb] is computed away. *)
Lemma lookup_unless_insert (v : PyVal) (k : string) (m : gmap string PyVal) :
  m !! k = None ->
  (if (if is_None v then false else true) then <[k := v]> m else m) !! k
  = unless_None v.
Proof.
  intros Hm. unfold unless_None.
  destruct (is_None v); [exact Hm | apply lookup_insert_eq].
Qed.

Ltac split_all := repeat match goal with |- _ /\ _ => split end.

Ltac lookup_other :=
  repeat first
    [ rewrite lookup_insert_ne by congruence
    | rewrite lookup_if_insert_ne by congruence
    | rewrite lookup_opt_insert_ne by congruence
    | rewrite lookup_list_insert_ne by congruence
    | rewrite lookup_empty ].

Lemma order_params_max_results mr lo hi st sts :
  order_params mr lo hi st sts !! "maxResults" = (if truthy mr then Some mr else None).
Proof.
  unfold order_params. lookup_through.
  destruct (truthy mr); lookup_through; reflexivity.
Qed.

Lemma order_params_status mr lo hi st sts :
  order_params mr lo hi st sts !! "status"
  = match sts with
    | Some ((_ :: _) as l) => Some (VStr (join "," l))
    | _ => if truthy st then Some st else None
    end.
Proof.
  unfold order_params.
  destruct sts as [[|x l]|]; [| apply lookup_insert_eq |];
    destruct (truthy st); lookup_through; reflexivity.
Qed.

Lemma order_params_other mr lo hi st sts (k : string) :
  k <> "fromEnteredTime" -> k <> "toEnteredTime" ->
  k <> "maxResults" -> k <> "status" ->
  order_params mr lo hi st sts !! k = None.
Proof. intros H1 H2 H3 H4. unfold order_params. lookup_other. reflexivity. Qed.

(** The query mapping of an order query holds [maxResults] exactly when
    [max_results] is truthy (so 0 is dropped); [status] is the joined list
    when a non-empty list is given, otherwise the single status when it is
    truthy (so the empty string is dropped); and there is no key besides
    these two and the two time bounds. *)
Theorem order_query_keys (w : World) (m : M Response) (account_id mr : PyVal)
    (f t : option datetime) (st : PyVal) (sts : option (list string)) :
  st = VNone \/ sts = None ->
  m = get_orders_by_path account_id mr f t st sts
  \/ m = get_orders_by_query mr f t st sts ->
  exists r q w',
    m w = (Returns (response_to r), w')
    /\ params r = Some q
    /\ q !! "maxResults" = (if truthy mr then Some mr else None)
    /\ q !! "status"
       = match sts with
         | Some ((_ :: _) as l) => Some (VStr (join "," l))
         | _ => if truthy st then Some st else None
         end
    /\ (forall k : string,
          k <> "fromEnteredTime" -> k <> "toEnteredTime" ->
          k <> "maxResults" -> k <> "status" -> q !! k = None).
Proof.
  intros Hone Hm.
  assert (Hgen : exists path, m =
            (do q <- __make_order_query mr f t st sts;
             __get_request path (Given q)))
    by (destruct Hm as [-> | ->]; eexists; reflexivity).
  destruct Hgen as [path ->].
  unfold bind. rewrite make_order_query_eq, (status_pair_false _ _ Hone).
  destruct t; do 3 eexists; (split; [reflexivity|]); (split; [reflexivity|]);
    (split; [apply order_params_max_results|]);
    (split; [apply order_params_status | apply order_params_other]).
Qed.

Lemma order_query_keys_witness :
  exists r q w',
    get_orders_by_query (VInt 0) None None (VStr "") None sample_world
    = (Returns (response_to r), w')
    /\ params r = Some q
    /\ q !! "maxResults" = None
    /\ q !! "status" = None
    /\ (forall k : string,
          k <> "fromEnteredTime" -> k <> "toEnteredTime" ->
          k <> "maxResults" -> k <> "status" -> q !! k = None).
Proof.
  apply (order_query_keys sample_world _ VNone (VInt 0) None None (VStr "") None).
  - right. reflexivity.
  - right. reflexivity.
Defined.

(** ** Empty lists *)

(** An empty [fields] list, and an empty [statuses] list next to no
    status, behave as if the argument were not given; an empty [statuses]
    list next to a status is still rejected, where no list at all is
    accepted; an empty symbol or market list is sent as the empty string. *)
Theorem empty_list_arguments (w : World) (account_id mr : PyVal)
    (f t : option datetime) (st : PyVal) (date : datetime) :
  get_account account_id (Some []) w = get_account account_id None w
  /\ get_accounts (Some []) w = get_accounts None w
  /\ get_orders_by_path account_id mr f t VNone (Some []) w
     = get_orders_by_path account_id mr f t VNone None w
  /\ get_orders_by_query mr f t VNone (Some []) w
     = get_orders_by_query mr f t VNone None w
  /\ (st <> VNone ->
        rejects_status_pair (get_orders_by_query mr f t st (Some [])) w
        /\ completes (get_orders_by_query mr f t st None) w)
  /\ sends_string (get_quotes []) w "symbol" ""
  /\ sends_string (get_hours_for_multiple_markets [] date) w "markets" "".
Proof.
  split; [reflexivity|]. split; [reflexivity|].
  split; [unfold get_orders_by_path, bind; rewrite !make_order_query_eq; reflexivity|].
  split; [unfold get_orders_by_query, bind; rewrite !make_order_query_eq; reflexivity|].
  split; [|split].
  - intros Hst. split.
    + unfold rejects_status_pair, get_orders_by_query, bind.
      rewrite make_order_query_eq, (status_pair_true st (Some [])) by congruence.
      eexists. split; [reflexivity|]. destruct t; reflexivity.
    + unfold completes, get_orders_by_query, bind.
      rewrite make_order_query_eq, (status_pair_false st None) by (right; reflexivity).
      do 2 eexists. split; [reflexivity|]. destruct t; reflexivity.
  - unfold sends_string. run. do 3 eexists.
    repeat (split; [reflexivity|]). lookup_through. reflexivity.
  - unfold sends_string. run. do 3 eexists.
    repeat (split; [reflexivity|]). lookup_through. reflexivity.
Qed.

Lemma empty_list_arguments_witness :
  rejects_status_pair
    (get_orders_by_query VNone None None (VStr "FILLED") (Some [])) sample_world
  /\ completes (get_orders_by_query VNone None None (VStr "FILLED") None) sample_world.
Proof.
  apply (proj1 (proj2 (proj2 (proj2 (proj2
           (empty_list_arguments sample_world VNone VNone None None
              (VStr "FILLED") datetime_min)))))).
  discriminate.
Defined.

(** ** The keys of the option chain and of the price history *)

(** [get_option_chain] always sends the key, the symbol and the five
    arguments that have defaults; each of [strike_count], [strategy],
    [interval], [strike], [volatility], [underlying_price] and
    [interest_rate] is sent under its key exactly when it is not [None]
    (a zero is sent), with the value unchanged. *)
Theorem option_chain_keys (w : World)
    (sy ct sc iq sg iv sk sr : PyVal) (fd td : option datetime)
    (vo up ir de em ot : PyVal) :
  exists r q,
    dispatches (get_option_chain sy ct sc iq sg iv sk sr fd td vo up ir de em ot) w r
    /\ verb r = GET
    /\ dest r = "https://api.tdameritrade.com/v1/marketdata/chains"
    /\ params r = Some q
    /\ q !! "apikey" = Some (api_key (self w))
    /\ q !! "symbol" = Some sy
    /\ q !! "includeQuotes" = Some iq
    /\ q !! "contractType" = Some ct
    /\ q !! "range" = Some sr
    /\ q !! "expMonth" = Some em
    /\ q !! "optionType" = Some ot
    /\ q !! "strikeCount" = unless_None sc
    /\ q !! "strategy" = unless_None sg
    /\ q !! "interval" = unless_None iv
    /\ q !! "strike" = unless_None sk
    /\ q !! "volatility" = unless_None vo
    /\ q !! "underlyingPrice" = unless_None up
    /\ q !! "interestRate" = unless_None ir.
Proof.
  run. do 2 eexists. do 4 (split; [reflexivity|]).
  split_all; lookup_through; try reflexivity;
    rewrite lookup_unless_insert; try reflexivity; lookup_through; reflexivity.
Qed.

(** [get_price_history], when the conversion of its bounds returns (as it
    always does for an aware or absent bound), puts the symbol in the path
    and in the query, always sends the key, [periodType], [frequency] and
    [needExtendedHoursData], and sends [period] and [frequencyType] exactly
    when [num_periods] and [frequency_type] are not [None]. *)
Theorem price_history_keys (w : World)
    (symbol pt np ft fr : PyVal) (sd ed : option datetime) (ne : PyVal)
    (s e : option Z) :
  bound_millis (local_utcoffset w) sd = Returns s ->
  bound_millis (local_utcoffset w) ed = Returns e ->
  exists r q,
    dispatches (get_price_history symbol pt np ft fr sd ed ne) w r
    /\ verb r = GET
    /\ dest r = "https://api.tdameritrade.com/v1/marketdata/" +:+ py_str symbol
                 +:+ "/pricehistory"
    /\ params r = Some q
    /\ q !! "apikey" = Some (api_key (self w))
    /\ q !! "symbol" = Some symbol
    /\ q !! "periodType" = Some pt
    /\ q !! "frequency" = Some fr
    /\ q !! "needExtendedHoursData" = Some ne
    /\ q !! "period" = unless_None np
    /\ q !! "frequencyType" = unless_None ft
    /\ (forall k : string,
          k <> "apikey" -> k <> "symbol" -> k <> "periodType" -> k <> "frequency" ->
          k <> "needExtendedHoursData" -> k <> "period" -> k <> "frequencyType" ->
          k <> "startDate" -> k <> "endDate" -> q !! k = None).
Proof.
  intros Hs He. unfold dispatches. rewrite get_price_history_eq, Hs, He.
  do 2 eexists. do 4 (split; [reflexivity|]).
  unfold price_params. cbv [negb].
  split_all; try (intros k H1 H2 H3 H4 H5 H6 H7 H8 H9; lookup_other; reflexivity);
    lookup_through; try reflexivity;
    rewrite lookup_unless_insert; try reflexivity; lookup_through; reflexivity.
Qed.

Lemma price_history_keys_witness :
  exists r q,
    dispatches
      (get_price_history (VStr "AAPL") (VStr "day") (VInt 0) VNone (VInt 1)
         (Some (mk_datetime 2020 2 29 14 5 9 0 (Some 3600000000))) None (VBool false))
      sample_world r
    /\ dest r = "https://api.tdameritrade.com/v1/marketdata/AAPL/pricehistory"
    /\ params r = Some q
    /\ q !! "period" = Some (VInt 0)
    /\ q !! "frequencyType" = None.
Proof.
  destruct (price_history_keys sample_world (VStr "AAPL") (VStr "day") (VInt 0) VNone
              (VInt 1) (Some (mk_datetime 2020 2 29 14 5 9 0 (Some 3600000000))) None
              (VBool false) (Some 1582981509000) None)
    as (r & q & Hd & _ & Hdest & Hp & _ & _ & _ & _ & _ & Hperiod & Hft & _).
  - vm_compute. reflexivity.
  - reflexivity.
  - exists r, q. repeat (split; [assumption|]). assumption.
Defined.

(** ** Errors *)

(** Whether a call raises, and what, is decided by its arguments and the
    local time zone: [get_order] always raises [TypeError], an order query
    raises [InvalidArgument] exactly when both status arguments are given,
    [get_instrument] exactly when the CUSIP is not a string,
    [get_price_history] exactly when the conversion of a given bound
    raises, which it never does for an aware bound, and no other method
    ever raises. *)
Theorem invoke_raises_exactly (c : call) (w : World) :
  match raised (local_utcoffset w) c with
  | Some e => fst (invoke c w) = Raises e
  | None => exists r, fst (invoke c w) = Returns (response_to r)
  end
  /\ (forall sy pt np ft fr sd ed ne,
        c = Call_get_price_history sy pt np ft fr sd ed ne ->
        (forall d, sd = Some d -> utcoffset d <> None) ->
        (forall d, ed = Some d -> utcoffset d <> None) ->
        raised (local_utcoffset w) c = None).
Proof.
  split.
  - destruct c; try (eexists; reflexivity); try reflexivity.
    + cbv [raised]. order_query_cases; try reflexivity; eexists; reflexivity.
    + cbv [raised]. order_query_cases; try reflexivity; eexists; reflexivity.
    + destruct cusip; try reflexivity. eexists. reflexivity.
    + cbv [raised invoke]. rewrite get_price_history_eq.
      destruct (bound_millis (local_utcoffset w) start_date); [|reflexivity].
      destruct (bound_millis (local_utcoffset w) end_date); [|reflexivity].
      eexists. reflexivity.
  - intros sy pt np ft fr sd ed ne -> Hsd Hed. cbv [raised].
    destruct (bound_millis_aware (local_utcoffset w) sd Hsd) as [s ->].
    destruct (bound_millis_aware (local_utcoffset w) ed Hed) as [e ->].
    reflexivity.
Qed.

Lemma invoke_raises_exactly_witness :
  raised (local_utcoffset sample_world)
    (Call_get_price_history (VStr "AAPL") (VStr "day") VNone VNone (VInt 1)
       (Some (mk_datetime 2020 2 29 14 5 9 0 (Some 3600000000))) None (VBool false))
  = None.
Proof.
  apply (proj2 (invoke_raises_exactly
                  (Call_get_price_history (VStr "AAPL") (VStr "day") VNone VNone (VInt 1)
                     (Some (mk_datetime 2020 2 29 14 5 9 0 (Some 3600000000))) None
                     (VBool false))
                  sample_world) _ _ _ _ _ _ _ _ eq_refl).
  - intros d Hd. injection Hd as <-. discriminate.
  - intros d Hd. discriminate Hd.
Defined.

(** ** Resource addresses *)

(** Methods on the same resource address it alike, whatever the order of
    their parameters: [cancel_order(order_id, account_id)] and
    [replace_order(account_id, order_id, _)] hit the same URL, as do the
    three methods on one saved order; [place_order] posts to the URL
    [get_orders_by_path] reads, and [create_saved_order] to the one
    [get_saved_orders_by_path] reads. *)
Theorem resource_urls_agree (w : World) (account_id order_id : PyVal) (order_spec : Json) :
  dest_of (cancel_order order_id account_id) w
  = dest_of (replace_order account_id order_id order_spec) w
  /\ dest_of (delete_saved_order account_id order_id) w
     = dest_of (get_saved_order account_id order_id) w
  /\ dest_of (get_saved_order account_id order_id) w
     = dest_of (replace_saved_order account_id order_id order_spec) w
  /\ dest_of (place_order account_id order_spec) w
     = dest_of (get_orders_by_path account_id VNone None None VNone None) w
  /\ dest_of (create_saved_order account_id order_spec) w
     = dest_of (get_saved_orders_by_path account_id) w
  /\ dest_of (cancel_order order_id account_id) w
     = Some ("https://api.tdameritrade.com/v1/accounts/" +:+ py_str account_id
             +:+ "/orders/" +:+ py_str order_id).
Proof. split_all; reflexivity. Qed.

(** ** Reading decimal digits back *)

Lemma digit_value_digit (d : Z) : 0 <= d < 10 -> digit_value (digit d) = d.
Proof.
  intros Hd. apply Z.eqb_eq. revert d Hd.
  apply (forallb_seqZ (fun d => digit_value (digit d) =? d) 10). reflexivity.
Qed.

Lemma two_value_digits (z : Z) :
  0 <= z < 100 -> two_value (digit (z / 10)) (digit (z mod 10)) = z.
Proof.
  intros Hz. unfold two_value.
  rewrite !digit_value_digit by (Z.div_mod_to_equations; lia).
  Z.div_mod_to_equations; lia.
Qed.

(** ** Offsets that are not whole minutes *)

Lemma offset_split (h m s : Z) :
  0 <= h < 24 -> 0 <= m < 60 -> 0 <= s < 60 ->
  let off := (h * 3600 + m * 60 + s) * 1000000 in
  off / 3600000000 = h
  /\ off mod 3600000000 / 60000000 = m
  /\ off mod 3600000000 mod 60000000 / 1000000 = s
  /\ off mod 1000000 = 0.
Proof.
  intros Hh Hm Hs off. subst off.
  assert (H1 : (h * 3600 + m * 60 + s) * 1000000 / 3600000000 = h)
    by (symmetry; apply (Z.div_unique _ _ _ ((m * 60 + s) * 1000000)); lia).
  assert (H2 : ((h * 3600 + m * 60 + s) * 1000000) mod 3600000000
               = (m * 60 + s) * 1000000)
    by (symmetry; apply (Z.mod_unique _ _ h); lia).
  assert (H3 : (m * 60 + s) * 1000000 / 60000000 = m)
    by (symmetry; apply (Z.div_unique _ _ _ (s * 1000000)); lia).
  assert (H4 : ((m * 60 + s) * 1000000) mod 60000000 = s * 1000000)
    by (symmetry; apply (Z.mod_unique _ _ m); lia).
  rewrite H1, H2, H3, H4, Z.div_mul by lia.
  repeat split.
  symmetry. apply (Z.mod_unique _ _ (h * 3600 + m * 60 + s)); lia.
Qed.

(** When the offset has a seconds part the suffix is [+HHMMSS] (or
    [-HHMMSS]), seven characters rather than the five of [+HHMM]. *)
Theorem format_datetime_seconds_offset (dt : datetime) (h m s : Z) :
  0 <= h < 24 -> 0 <= m < 60 -> 0 < s < 60 ->
  (utcoffset dt = Some ((h * 3600 + m * 60 + s) * 1000000) ->
     __format_datetime dt = strftime_ymdHMS dt +:+ hhmmss "+" h m s)
  /\ (utcoffset dt = Some (- ((h * 3600 + m * 60 + s) * 1000000)) ->
      __format_datetime dt = strftime_ymdHMS dt +:+ hhmmss "-" h m s).
Proof.
  intros Hh Hm Hs.
  destruct (offset_split h m s Hh Hm ltac:(lia)) as (H1 & H2 & H3 & H4).
  split; intros Hoff; unfold __format_datetime, strftime_z; rewrite Hoff.
  - destruct (Z.ltb_spec ((h * 3600 + m * 60 + s) * 1000000) 0); [lia|].
    rewrite H1, H2, H3, H4. cbn [Z.eqb negb].
    destruct (Z.eqb_spec s 0); [lia|]. cbn [negb].
    rewrite !fmt_0d_2 by lia. reflexivity.
  - destruct (Z.ltb_spec (- ((h * 3600 + m * 60 + s) * 1000000)) 0); [|lia].
    rewrite Z.opp_involutive, H1, H2, H3, H4. cbn [Z.eqb negb].
    destruct (Z.eqb_spec s 0); [lia|]. cbn [negb].
    rewrite !fmt_0d_2 by lia. reflexivity.
Qed.

Lemma format_datetime_seconds_offset_witness :
  __format_datetime (mk_datetime 1900 1 1 0 0 0 0 (Some 1172000000))
  = strftime_ymdHMS (mk_datetime 1900 1 1 0 0 0 0 (Some 1172000000))
    +:+ hhmmss "+" 0 19 32.
Proof.
  apply (proj1 (format_datetime_seconds_offset
                  (mk_datetime 1900 1 1 0 0 0 0 (Some 1172000000)) 0 19 32
                  ltac:(lia) ltac:(lia) ltac:(lia))).
  reflexivity.
Defined.

(** ** Epoch milliseconds of an aware timestamp *)

(** The milliseconds of an aware timestamp are those of its instant: the
    same instant written in a zone [k] hours away gives the same value. *)
Theorem datetime_as_millis_same_instant (tz : Z -> Z) (dt : datetime) (k : Z) :
  utcoffset dt <> None ->
  __datetime_as_millis tz (shift_zone k dt) = __datetime_as_millis tz dt.
Proof.
  intros Haware.
  destruct dt as [y mo d h mi se us [off|]]; [|exfalso; apply Haware; reflexivity].
  unfold __datetime_as_millis, timestamp, shift_zone, wall_seconds.
  cbn [utcoffset year month day hour minute second microsecond fmap option_fmap option_map].
  match goal with
  | |- context [int_truediv ?a 1000000] =>
      replace a with ((((_ymd2ord y mo d - _ymd2ord 1970 1 1) * 86400 + h * 3600
                        + mi * 60 + se) * 1000000 + us - off)) by lia
  end.
  reflexivity.
Qed.

Lemma datetime_as_millis_same_instant_witness :
  __datetime_as_millis (fun _ => 0) (mk_datetime 2020 2 29 18 5 9 123456 (Some 18000000000))
  = __datetime_as_millis (fun _ => 0) (mk_datetime 2020 2 29 13 5 9 123456 (Some 0)).
Proof.
  apply (datetime_as_millis_same_instant (fun _ => 0)
           (mk_datetime 2020 2 29 13 5 9 123456 (Some 0)) 5).
  discriminate.
Defined.

(** ** Integer identifiers in a path *)

Lemma dec_digits_parse (fuel : nat) :
  forall (n : Z) (acc : string),
    0 <= n < 10 ^ Z.of_nat fuel ->
    parse_digits (dec_digits fuel n acc) 0 = parse_digits acc n.
Proof.
  induction fuel as [|fuel IH]; intros n acc Hn.
  - cbn in Hn. replace n with 0 by lia. reflexivity.
  - rewrite Nat2Z.inj_succ, Z.pow_succ_r in Hn by lia.
    cbn [dec_digits].
    destruct (Z.eqb_spec (n / 10) 0) as [Hq|Hq].
    + cbn [parse_digits]. rewrite digit_value_digit by (apply Z.mod_pos_bound; lia).
      f_equal. Z.div_mod_to_equations; lia.
    + rewrite IH by (Z.div_mod_to_equations; lia).
      cbn [parse_digits]. rewrite digit_value_digit by (apply Z.mod_pos_bound; lia).
      f_equal. Z.div_mod_to_equations; lia.
Qed.

Lemma parse_decimal (n : Z) : 0 <= n -> parse_digits (decimal n) 0 = n.
Proof.
  intros Hn. unfold decimal. rewrite dec_digits_parse; [reflexivity|].
  split; [exact Hn|].
  rewrite Nat2Z.inj_succ, Z2Nat.id by apply Z.log2_nonneg.
  destruct (Z.eq_dec n 0) as [->|Hnz]; [reflexivity|].
  apply Z.lt_le_trans with (2 ^ Z.succ (Z.log2 n)).
  - apply Z.log2_spec. lia.
  - apply Z.pow_le_mono_l. lia.
Qed.

Lemma decimal_head (n : Z) :
  0 <= n -> exists d rest, 0 <= d < 10 /\ decimal n = String (digit d) rest.
Proof.
  intros Hn. unfold decimal.
  generalize (Z.to_nat (Z.log2 n)) as fuel.
  assert (Hgen : forall fuel m d rest, 0 <= d < 10 ->
            exists d' rest', 0 <= d' < 10
              /\ dec_digits fuel m (String (digit d) rest) = String (digit d') rest').
  { induction fuel as [|fuel IH]; intros m d rest Hd.
    - exists d, rest. split; [exact Hd | reflexivity].
    - cbn [dec_digits]. destruct (m / 10 =? 0).
      + do 2 eexists. split; [|reflexivity]. apply Z.mod_pos_bound. lia.
      + apply IH. apply Z.mod_pos_bound. lia. }
  intros fuel. cbn [dec_digits]. destruct (n / 10 =? 0).
  - do 2 eexists. split; [|reflexivity]. apply Z.mod_pos_bound. lia.
  - apply Hgen. apply Z.mod_pos_bound. lia.
Qed.

Lemma digit_not_minus (d : Z) : 0 <= d < 10 -> Ascii.eqb (digit d) "-" = false.
Proof.
  intros Hd. apply negb_true_iff. revert d Hd.
  apply (forallb_seqZ (fun d => negb (Ascii.eqb (digit d) "-")) 10). reflexivity.
Qed.

(** An integer identifier is written into the path in decimal and reads
    back as itself, so different integer account identifiers give
    different account URLs. *)
Theorem integer_identifier_round_trip (w : World) (a b : Z) (fields : option (list string)) :
  parse_int (py_str (VInt a)) = a
  /\ (dest_of (get_account (VInt a) fields) w = dest_of (get_account (VInt b) fields) w ->
      a = b).
Proof.
  assert (Hparse : forall z, parse_int (str_int z) = z).
  { intros z. unfold str_int. destruct (Z.ltb_spec z 0) as [Hneg|Hpos].
    - change ("-" +:+ decimal (- z)) with (String "-" (decimal (- z))).
      cbn [parse_int]. rewrite parse_decimal by lia. lia.
    - destruct (decimal_head z Hpos) as (d & rest & Hd & Heq).
      pose proof (parse_decimal z Hpos) as Hp. rewrite Heq in Hp |- *.
      unfold parse_int. pose proof (digit_not_minus d Hd) as Hm.
      destruct (digit d) as [[] [] [] [] [] [] [] []]; try exact Hp; discriminate Hm. }
  split; [apply Hparse|].
  intros Hdest. injection Hdest as Hstr.
  rewrite <- (Hparse a), <- (Hparse b). f_equal. exact Hstr.
Qed.

Lemma integer_identifier_round_trip_witness :
  parse_int (py_str (VInt 42)) = 42.
Proof.
  apply (proj1 (integer_identifier_round_trip sample_world 42 42 None)).
Defined.

(** ** Reading a formatted timestamp back *)

Lemma dec_digits_free (fuel : nat) :
  forall (n : Z) (acc : string),
    free_of "-" acc = true -> free_of "-" (dec_digits fuel n acc) = true.
Proof.
  induction fuel as [|fuel IH]; intros n acc Hacc; [exact Hacc|].
  cbn [dec_digits].
  assert (Hcons : free_of "-" (String (digit (n mod 10)) acc) = true).
  { cbn [free_of]. rewrite digit_not_minus by (apply Z.mod_pos_bound; lia).
    exact Hacc. }
  destruct (n / 10 =? 0); [exact Hcons | apply IH, Hcons].
Qed.

Lemma take_until_app (c : ascii) (x rest : string) :
  free_of c x = true -> take_until c (x +:+ String c rest) = (x, rest).
Proof.
  induction x as [|a x IH].
  - intros _. change ("" +:+ String c rest) with (String c rest).
    cbn [take_until]. rewrite Ascii.eqb_refl. reflexivity.
  - change (String a x +:+ String c rest) with (String a (x +:+ String c rest)).
    cbn [free_of take_until]. intros [Ha Hx]%andb_true_iff.
    apply negb_true_iff in Ha. rewrite Ha, (IH Hx). reflexivity.
Qed.

Lemma string_app_assoc (x y z : string) : (x +:+ y) +:+ z = x +:+ (y +:+ z).
Proof.
  induction x as [|a x IH]; [reflexivity|].
  change (String a ((x +:+ y) +:+ z) = String a (x +:+ (y +:+ z))).
  f_equal. exact IH.
Qed.

Lemma parse_format_datetime (dt : datetime) :
  valid_datetime dt = true ->
  parse_iso_fields (__format_datetime dt)
  = Some (year dt, month dt, day dt, hour dt, minute dt, second dt).
Proof.
  intros Hv. unfold __format_datetime.
  rewrite (strftime_ymdHMS_fields dt Hv), string_app_assoc.
  apply valid_datetime_ranges in Hv as (Hy & Hm & Hd & HH & HM & HS).
  generalize (if negb (String.eqb (strftime_z dt) "") then strftime_z dt else "+0000").
  intros tz.
  change (iso_tail dt +:+ tz)
    with (String "-"
            (two_digits (month dt) +:+ "-" +:+ two_digits (day dt) +:+ "T" +:+
             two_digits (hour dt) +:+ ":" +:+ two_digits (minute dt) +:+ ":" +:+
             two_digits (second dt) +:+ tz)).
  unfold parse_iso_fields.
  rewrite take_until_app by (apply dec_digits_free; reflexivity).
  cbv [two_digits String.append list_ascii_of_string].
  rewrite parse_decimal by lia.
  rewrite !two_value_digits by lia. reflexivity.
Qed.

(** The six wall-clock fields can be read back from the formatted string
    (the year is what precedes the first dash), so two timestamps that
    format alike agree on them; conversely the string depends on nothing
    else but the offset, a missing offset counting as a zero one:
    microseconds are dropped. *)
Theorem format_datetime_round_trip (dt dt' : datetime) :
  valid_datetime dt = true ->
  valid_datetime dt' = true ->
  parse_iso_fields (__format_datetime dt)
  = Some (year dt, month dt, day dt, hour dt, minute dt, second dt)
  /\ (__format_datetime dt = __format_datetime dt' ->
      (year dt, month dt, day dt, hour dt, minute dt, second dt)
      = (year dt', month dt', day dt', hour dt', minute dt', second dt'))
  /\ ((year dt, month dt, day dt, hour dt, minute dt, second dt)
      = (year dt', month dt', day dt', hour dt', minute dt', second dt') ->
      default 0 (utcoffset dt) = default 0 (utcoffset dt') ->
      __format_datetime dt = __format_datetime dt').
Proof.
  intros Hv Hv'. split; [apply parse_format_datetime, Hv|]. split.
  - intros Heq.
    pose proof (parse_format_datetime dt Hv) as H1.
    pose proof (parse_format_datetime dt' Hv') as H2.
    rewrite Heq in H1. congruence.
  - intros Hf Ho. injection Hf as Hy Hm Hd HH HM HS.
    unfold __format_datetime, strftime_ymdHMS. rewrite Hy, Hm, Hd, HH, HM, HS.
    f_equal. unfold strftime_z.
    destruct (utcoffset dt) as [o|], (utcoffset dt') as [o'|];
      cbv [default from_option id] in Ho; subst; reflexivity.
Qed.

Lemma format_datetime_round_trip_witness :
  parse_iso_fields (__format_datetime (mk_datetime 987 6 5 4 3 2 123456 None))
  = Some (987, 6, 5, 4, 3, 2)
  /\ __format_datetime (mk_datetime 987 6 5 4 3 2 123456 None)
     = __format_datetime (mk_datetime 987 6 5 4 3 2 0 (Some 0)).
Proof.
  destruct (format_datetime_round_trip
              (mk_datetime 987 6 5 4 3 2 123456 None)
              (mk_datetime 987 6 5 4 3 2 0 (Some 0)) eq_refl eq_refl)
    as (Hparse & _ & Hsame).
  split; [exact Hparse | apply Hsame; reflexivity].
Defined.
